(** * Apex: Binance reference-data normaliser (python/parse_binance_refdata.py)

    A shallow embedding of the parse step: contract-type classification,
    the future-code simplifier, the two segment normalisers, column
    discovery and the CSV writer, followed by the properties proved of them.

    Conventions of the model.
    - A Python [str] is a Rocq [string]; one [ascii] stands for one code
      point in the range U+0000..U+00FF.  Code points above U+00FF are not
      represented.
    - A value read by [json.load] is a [pyval].  JSON numbers with a
      fraction or an exponent (Python floats) are not represented.
    - A Python [dict] with string keys is an association list in insertion
      order; assigning to an existing key keeps its position.
    - Exceptions are the constructors of [exn]; the bare [Exception] that
      the code raises itself is [FormatError].
    - The module-level set [log_warn_once_msgs] and the diagnostics written
      by [logging] and [print] form the [world] threaded through [M].
    - Opening and reading files is outside the model: the functions that
      read a file take the document that [json.load] returned. *)

From Stdlib Require Import String Ascii List ZArith Lia Bool Arith.
From Stdlib Require Import Sorting.Sorted Sorting.Permutation.
From Stdlib Require Import DecimalString.
Import ListNotations.

Set Warnings "-register-all".
Open Scope list_scope.
Open Scope string_scope.

(** ** Python values *)

Inductive pyval : Type :=
| PNone
| PBool (b : bool)
| PInt (z : Z)
| PStr (s : string)
| PList (l : list pyval)
| PDict (d : list (string * pyval)).

Definition dict : Type := list (string * pyval).

Inductive exn : Type :=
| FormatError (msg : string)
| KeyError (key : string)
| TypeError
| AttributeError
| ValueError
| IndexError.

Inductive result (A : Type) : Type :=
| Ok (a : A)
| Raise (e : exn).

Arguments Ok {A} a.
Arguments Raise {A} e.

Definition rbind {A B : Type} (r : result A) (k : A -> result B) : result B :=
  match r with
  | Ok a => k a
  | Raise e => Raise e
  end.

Notation "'let?' x ':=' r 'in' k" := (rbind r (fun x => k))
  (at level 10, x name, r at level 100, k at level 200).

(** ** Strings *)

Module PyStr.

Definition chr (c : ascii) : string := String c EmptyString.

Definition rev_string (s : string) : string :=
  string_of_list_ascii (rev (list_ascii_of_string s)).

(** [s.split(sep)] for a one-character separator. *)
Fixpoint split (sep : ascii) (s : string) : list string :=
  match s with
  | EmptyString => [EmptyString]
  | String c s' =>
      if Ascii.eqb c sep then EmptyString :: split sep s'
      else match split sep s' with
           | p :: ps => String c p :: ps
           | [] => [chr c]
           end
  end.

(** [s.endswith(suffix)] *)
Definition endswith (s suffix : string) : bool :=
  prefix (rev_string suffix) (rev_string s).

Fixpoint replace_from (old new : string) (skip : nat) (s : string) : string :=
  match s with
  | EmptyString => EmptyString
  | String c s' =>
      match skip with
      | S k => replace_from old new k s'
      | O =>
          if prefix old s
          then new ++ replace_from old new (String.length old - 1) s'
          else String c (replace_from old new 0 s')
      end
  end.

(** [s.replace(old, new)] for a non-empty [old]: every occurrence, left to
    right, without overlap. *)
Definition replace (old new s : string) : string := replace_from old new 0 s.

(** [s[i]] with Python's negative indices. *)
Definition index (s : string) (i : Z) : result string :=
  let n := Z.of_nat (String.length s) in
  if ((0 <=? i)%Z && (i <? n)%Z)%bool then
    match String.get (Z.to_nat i) s with
    | Some c => Ok (chr c)
    | None => Raise IndexError
    end
  else if ((- n <=? i)%Z && (i <? 0)%Z)%bool then
    match String.get (Z.to_nat (n + i)) s with
    | Some c => Ok (chr c)
    | None => Raise IndexError
    end
  else Raise IndexError.

(** [s[a:b]] for [0 <= a <= b]. *)
Definition slice (a b : nat) (s : string) : string := substring a (b - a) s.

(** White space skipped by [int()] around the number. *)
Definition is_space (c : ascii) : bool :=
  let n := nat_of_ascii c in
  (((9 <=? n) && (n <=? 13)) || (n =? 32) || (n =? 133) || (n =? 160))%nat.

Definition is_digit (c : ascii) : bool :=
  let n := nat_of_ascii c in ((48 <=? n) && (n <=? 57))%nat.

Definition digit_val (c : ascii) : Z := Z.of_nat (nat_of_ascii c - 48).

Fixpoint lstrip (s : string) : string :=
  match s with
  | EmptyString => EmptyString
  | String c s' => if is_space c then lstrip s' else s
  end.

Definition strip (s : string) : string :=
  rev_string (lstrip (rev_string (lstrip s))).

(** Decimal digits, single underscores allowed between two digits. *)
Fixpoint int_digits (after_digit : bool) (acc : Z) (s : string) : option Z :=
  match s with
  | EmptyString => if after_digit then Some acc else None
  | String c s' =>
      if is_digit c then int_digits true (10 * acc + digit_val c)%Z s'
      else if (Ascii.eqb c "_" && after_digit)%bool then int_digits false acc s'
      else None
  end.

(** [int(s)]: [None] stands for [ValueError]. *)
Definition int (s : string) : option Z :=
  match strip s with
  | String "+" r => int_digits false 0%Z r
  | String "-" r => option_map Z.opp (int_digits false 0%Z r)
  | t => int_digits false 0%Z t
  end.

Definition of_Z (z : Z) : string := NilZero.string_of_int (Z.to_int z).

Definition hex_digit (n : nat) : ascii :=
  if (n <? 10)%nat then ascii_of_nat (48 + n) else ascii_of_nat (87 + n).

Definition hex_escape (c : ascii) : string :=
  let n := nat_of_ascii c in
  String "\" (String "x" (String (hex_digit (n / 16)) (chr (hex_digit (n mod 16))))).

Fixpoint contains_char (c : ascii) (s : string) : bool :=
  match s with
  | EmptyString => false
  | String d s' => Ascii.eqb c d || contains_char c s'
  end.

Definition repr_char (quote c : ascii) : string :=
  let n := nat_of_ascii c in
  if (Ascii.eqb c quote || Ascii.eqb c "\")%bool then String "\" (chr c)
  else if (n =? 9)%nat then "\t"
  else if (n =? 10)%nat then "\n"
  else if (n =? 13)%nat then "\r"
  else if ((n <? 32) || (n =? 127))%nat then hex_escape c
  else if (n <? 127)%nat then chr c
  else if ((n <? 161) || (n =? 173))%nat then hex_escape c
  else chr c.

Fixpoint repr_body (quote : ascii) (s : string) : string :=
  match s with
  | EmptyString => EmptyString
  | String c s' => repr_char quote c ++ repr_body quote s'
  end.

Definition dquote : ascii := ascii_of_nat 34.

(** [repr(s)] of a string. *)
Definition repr (s : string) : string :=
  let quote : ascii :=
    if (contains_char "'" s && negb (contains_char dquote s))%bool
    then dquote else "'"%char in
  chr quote ++ repr_body quote s ++ chr quote.

End PyStr.

(** [repr(v)] and [str(v)]; [format] with an empty format spec is [str]. *)
Fixpoint py_repr (v : pyval) : string :=
  match v with
  | PNone => "None"
  | PBool true => "True"
  | PBool false => "False"
  | PInt z => PyStr.of_Z z
  | PStr s => PyStr.repr s
  | PList l => "[" ++ String.concat ", " (map py_repr l) ++ "]"
  | PDict d =>
      "{" ++ String.concat ", "
               (map (fun kv => let '(k, x) := kv in PyStr.repr k ++ ": " ++ py_repr x) d)
          ++ "}"
  end.

Definition py_str (v : pyval) : string :=
  match v with
  | PStr s => s
  | _ => py_repr v
  end.

(** [v == s] for a string literal [s]. *)
Definition py_eq_str (v : pyval) (s : string) : bool :=
  match v with
  | PStr t => String.eqb t s
  | _ => false
  end.

Definition py_hashable (v : pyval) : bool :=
  match v with
  | PList _ | PDict _ => false
  | _ => true
  end.

(** A [str] method called on [v]: only a string has it. *)
Definition as_str (v : pyval) : result string :=
  match v with
  | PStr s => Ok s
  | _ => Raise AttributeError
  end.

(** ** Dictionaries *)

Fixpoint dict_get (d : dict) (k : string) : option pyval :=
  match d with
  | [] => None
  | (k', v) :: d' => if String.eqb k' k then Some v else dict_get d' k
  end.

(** [d[k] = v] *)
Fixpoint dict_set (d : dict) (k : string) (v : pyval) : dict :=
  match d with
  | [] => [(k, v)]
  | (k', v') :: d' =>
      if String.eqb k' k then (k', v) :: d' else (k', v') :: dict_set d' k v
  end.

Definition dict_keys (d : dict) : list string := map fst d.

(** [k in d] *)
Definition dict_has (d : dict) (k : string) : bool :=
  match dict_get d k with
  | Some _ => true
  | None => false
  end.

(** [d.get(k, default)] *)
Definition dict_get_default (d : dict) (k : string) (default : pyval) : pyval :=
  match dict_get d k with
  | Some v => v
  | None => default
  end.

(** [v[k]] for a string [k]: only a dict can be subscripted by a string. *)
Definition py_getitem (v : pyval) (k : string) : result pyval :=
  match v with
  | PDict d =>
      match dict_get d k with
      | Some x => Ok x
      | None => Raise (KeyError k)
      end
  | _ => Raise TypeError
  end.

(** [len(v)] *)
Definition py_len (v : pyval) : result nat :=
  match v with
  | PList l => Ok (List.length l)
  | PStr s => Ok (String.length s)
  | PDict d => Ok (List.length d)
  | _ => Raise TypeError
  end.

(** [k in v] for a string [k]. *)
Fixpoint is_substring (k s : string) : bool :=
  match s with
  | EmptyString => prefix k EmptyString
  | String _ s' => prefix k s || is_substring k s'
  end.

Definition py_contains (v : pyval) (k : string) : result bool :=
  match v with
  | PDict d => Ok (dict_has d k)
  | PList l => Ok (existsb (fun x => py_eq_str x k) l)
  | PStr s => Ok (is_substring k s)
  | _ => Raise TypeError
  end.

(** [v.get(k, default)]: a method of dicts only. *)
Definition py_get (v : pyval) (k : string) (default : pyval) : result pyval :=
  match v with
  | PDict d => Ok (dict_get_default d k default)
  | _ => Raise AttributeError
  end.

(** The values a [for] loop over [v] visits. *)
Definition py_iter (v : pyval) : result (list pyval) :=
  match v with
  | PList l => Ok l
  | PStr s => Ok (map (fun c => PStr (PyStr.chr c)) (list_ascii_of_string s))
  | PDict d => Ok (map PStr (dict_keys d))
  | _ => Raise TypeError
  end.

(** ** Future-Code Simplifier *)

Definition month_codes : string := "FGHJKMNQUVXZ".

Definition simplify_future_native_code (symbol : string) : result string :=
  let parts := PyStr.split "_" symbol in
  if negb (List.length parts =? 2)%nat then
    Raise (FormatError ("expected symbol to split into 2 parts, '" ++ symbol ++ "'"))
  else
    let date := nth 1 parts EmptyString in
    if negb (String.length date =? 6)%nat then
      Raise (FormatError ("expected symbol-date to have len 6, '" ++ date ++ "'"))
    else
      let year := PyStr.slice 0 2 date in
      match PyStr.int (PyStr.slice 2 4 date) with
      | None => Raise ValueError
      | Some month =>
          let? month_code := PyStr.index month_codes (month - 1) in
          let? y := PyStr.index year 1 in
          Ok (String.concat "." [month_code ++ y; "BNC"])
      end.

(** ** Diagnostics and the warn-once set *)

Inductive event : Type :=
| LogInfo (msg : string)
| LogInfoIgnoring (filters : list string)
| LogWarning (msg : string)
| Stdout (msg : string).

(** [LogInfoIgnoring fs] is the [logging.info] line that formats the ignore-set
    [fs]; the order in which Python renders a set of strings is not fixed,
    so the event keeps the members instead of a text. *)

Record world : Type := mkWorld {
  log_warn_once_msgs : list string;
  emitted : list event
}.

Definition M (A : Type) : Type := world -> result A * world.

Definition ret {A : Type} (a : A) : M A := fun w => (Ok a, w).

Definition lift {A : Type} (r : result A) : M A := fun w => (r, w).

Definition bind {A B : Type} (m : M A) (k : A -> M B) : M B :=
  fun w =>
    match m w with
    | (Ok a, w') => k a w'
    | (Raise e, w') => (Raise e, w')
    end.

Notation "x <- m ;; k" := (bind m (fun x => k))
  (at level 61, m at next level, right associativity).
Notation "m ;; k" := (bind m (fun _ => k))
  (at level 61, right associativity).

Definition emit (e : event) : M unit :=
  fun w => (Ok tt, mkWorld (log_warn_once_msgs w) (emitted w ++ [e])%list).

(** A [for] loop whose body updates a loop-carried value. *)
Fixpoint for_each {A S : Type} (body : S -> A -> M S) (s : S) (l : list A) : M S :=
  match l with
  | [] => ret s
  | x :: l' => s' <- body s x ;; for_each body s' l'
  end.

Definition log_warn_once (msg : string) : M unit :=
  fun w =>
    if existsb (String.eqb msg) (log_warn_once_msgs w) then (Ok tt, w)
    else emit (LogWarning msg) (mkWorld (msg :: log_warn_once_msgs w) (emitted w)).

Definition format_slash (a b : pyval) : string := py_str a ++ "/" ++ py_str b.

(** ** Spot normaliser *)

Definition spot_filters_to_ignore : list string :=
  [ "MAX_NUM_ALGO_ORDERS"; "ICEBERG_PARTS"; "MARKET_LOT_SIZE"; "PERCENT_PRICE";
    "TRAILING_DELTA"; "PERCENT_PRICE_BY_SIDE"; "MAX_POSITION" ].

(** [filterType in filters_to_ignore]: hashes [filterType] first. *)
Definition in_filter_set (filterType : pyval) (filters : list string) : result bool :=
  if py_hashable filterType then Ok (existsb (py_eq_str filterType) filters)
  else Raise TypeError.

(** Body of the filter loop, lines 69-84. *)
Definition spot_filter (row : dict) (filter : pyval) : M dict :=
  filterType <- lift (py_getitem filter "filterType") ;;
  if py_eq_str filterType "LOT_SIZE" then
    minQty <- lift (py_getitem filter "minQty") ;;
    maxQty <- lift (py_getitem filter "maxQty") ;;
    stepSize <- lift (py_getitem filter "stepSize") ;;
    ret (dict_set (dict_set (dict_set row "minQty" minQty) "maxQty" maxQty)
                  "lotQty" stepSize)
  else if py_eq_str filterType "MIN_NOTIONAL" then
    minNotional <- lift (py_getitem filter "minNotional") ;;
    ret (dict_set row "minNotional" minNotional)
  else if py_eq_str filterType "PRICE_FILTER" then
    tickSize <- lift (py_getitem filter "tickSize") ;;
    ret (dict_set row "tickSize" tickSize)
  else if py_eq_str filterType "MAX_NUM_ORDERS" then
    maxNumOrders <- lift (py_getitem filter "maxNumOrders") ;;
    ret (dict_set row "maxNumOrders" maxNumOrders)
  else
    ignored <- lift (in_filter_set filterType spot_filters_to_ignore) ;;
    if (ignored : bool) then ret row
    else
      log_warn_once ("ignoring binance filter '" ++ py_str filterType ++ "'") ;;
      ret row.

(** Body of the symbol loop, lines 54-85. *)
Definition spot_item (rows : list dict) (item : pyval) : M (list dict) :=
  baseAsset <- lift (py_getitem item "baseAsset") ;;
  quoteAsset <- lift (py_getitem item "quoteAsset") ;;
  let asset_id_root := format_slash baseAsset quoteAsset in
  symbol <- lift (py_getitem item "symbol") ;;
  let row := dict_set [] "symbol" symbol in
  let row := dict_set row "instId" (PStr (asset_id_root ++ ".BNC")) in
  let row := dict_set row "type" (PStr "coinpair") in
  let row := dict_set row "venue" (PStr "binance") in
  baseAsset <- lift (py_getitem item "baseAsset") ;;
  let row := dict_set row "baseAsset" baseAsset in
  quoteAsset <- lift (py_getitem item "quoteAsset") ;;
  let row := dict_set row "quoteAsset" quoteAsset in
  quoteAsset <- lift (py_getitem item "quoteAsset") ;;
  let row := dict_set row "quoteAsset" quoteAsset in
  quoteAssetPrecision <- lift (py_getitem item "quoteAssetPrecision") ;;
  let row := dict_set row "quoteAssetPrecision" quoteAssetPrecision in
  baseAssetPrecision <- lift (py_getitem item "baseAssetPrecision") ;;
  let row := dict_set row "baseAssetPrecision" baseAssetPrecision in
  status <- lift (py_getitem item "status") ;;
  let row := dict_set row "status" status in
  filters <- lift (py_getitem item "filters") ;;
  filters <- lift (py_iter filters) ;;
  row <- for_each spot_filter row filters ;;
  ret (rows ++ [row])%list.

Definition parse_binance_spot_exchange_info (fn : string) (data : pyval)
  : M (list dict) :=
  emit (LogInfo ("reading file '" ++ fn ++ "'")) ;;
  symbols <- lift (py_getitem data "symbols") ;;
  n <- lift (py_len symbols) ;;
  emit (LogInfo ("file has " ++ PyStr.of_Z (Z.of_nat n) ++ " symbols")) ;;
  emit (LogInfoIgnoring spot_filters_to_ignore) ;;
  items <- lift (py_iter symbols) ;;
  for_each spot_item [] items.

(** ** Contract-Type Classifier *)

Definition normalise_contractType (contractType : pyval)
  : M (option string * option string) :=
  if py_eq_str contractType "PERPETUAL" then ret (Some "perp", Some "PF")
  else if existsb (py_eq_str contractType) ["CURRENT_QUARTER"; "NEXT_QUARTER"]
  then ret (Some "future", Some EmptyString)
  else
    emit (Stdout ("unhandled contract type: " ++ py_str contractType)) ;;
    ret (None, None).

(** ** Derivative normaliser *)

Definition usdfut_filters_to_ignore : list string :=
  [ "MAX_NUM_ALGO_ORDERS"; "ICEBERG_PARTS"; "MARKET_LOT_SIZE"; "PERCENT_PRICE" ].

(** Instrument-ID Builder, lines 143-153: the value of [row["instId"]]
    after the two [if] statements. *)
Definition usdfut_instId (assetType : string) (symbol : pyval)
           (asset_id_root : string) : result string :=
  let? not_perp_suffix :=
    (if String.eqb assetType "perp"
     then let? s := as_str symbol in Ok (negb (PyStr.endswith s "_PERP"))
     else Ok false) in
  let? instId :=
    (if (not_perp_suffix : bool) then Ok (asset_id_root ++ ".PF.BNC")
     else
       let? dot_perp_suffix :=
         (if String.eqb assetType "perp"
          then let? s := as_str symbol in Ok (PyStr.endswith s ".PERP")
          else Ok false) in
       if (dot_perp_suffix : bool) then
         let? s := as_str symbol in
         Ok (PyStr.replace "_PERP" ".PF" s ++ ".BNC")
       else Ok (asset_id_root ++ ".BNC")) in
  if String.eqb assetType "future" then
    let? s := as_str symbol in
    let? code := simplify_future_native_code s in
    Ok (asset_id_root ++ "." ++ code)
  else Ok instId.

(** Body of the filter loop, lines 175-190.  The last branch calls
    [logging.warn] itself, not [log_warn_once]. *)
Definition usdfut_filter (row : dict) (filter : pyval) : M dict :=
  filterType <- lift (py_getitem filter "filterType") ;;
  if py_eq_str filterType "LOT_SIZE" then
    minQty <- lift (py_getitem filter "minQty") ;;
    maxQty <- lift (py_getitem filter "maxQty") ;;
    stepSize <- lift (py_getitem filter "stepSize") ;;
    ret (dict_set (dict_set (dict_set row "minQty" minQty) "maxQty" maxQty)
                  "lotQty" stepSize)
  else if py_eq_str filterType "MIN_NOTIONAL" then
    notional <- lift (py_getitem filter "notional") ;;
    ret (dict_set row "minNotional" notional)
  else if py_eq_str filterType "PRICE_FILTER" then
    tickSize <- lift (py_getitem filter "tickSize") ;;
    ret (dict_set row "tickSize" tickSize)
  else if py_eq_str filterType "MAX_NUM_ORDERS" then
    limit <- lift (py_getitem filter "limit") ;;
    ret (dict_set row "maxNumOrders" limit)
  else
    ignored <- lift (in_filter_set filterType usdfut_filters_to_ignore) ;;
    if (ignored : bool) then ret row
    else
      emit (LogWarning ("ignoring binance filter '" ++ py_str filterType ++ "'")) ;;
      ret row.

(** The part of the symbol loop after the classification, lines 143-192. *)
Definition usdfut_row (venue : string) (item : pyval) (row : dict)
           (asset_id_root : string) (symbol : pyval) (assetType : string)
  : M dict :=
  instId <- lift (usdfut_instId assetType symbol asset_id_root) ;;
  let row := dict_set row "instId" (PStr instId) in
  let row := dict_set row "type" (PStr assetType) in
  let row := dict_set row "venue" (PStr venue) in
  baseAsset <- lift (py_getitem item "baseAsset") ;;
  let row := dict_set row "baseAsset" baseAsset in
  quoteAsset <- lift (py_getitem item "quoteAsset") ;;
  let row := dict_set row "quoteAsset" quoteAsset in
  marginAsset <- lift (py_getitem item "marginAsset") ;;
  let row := dict_set row "marginAsset" marginAsset in
  quotePrecision <- lift (py_getitem item "quotePrecision") ;;
  let row := dict_set row "quoteAssetPrecision" quotePrecision in
  baseAssetPrecision <- lift (py_getitem item "baseAssetPrecision") ;;
  let row := dict_set row "baseAssetPrecision" baseAssetPrecision in
  has_status <- lift (py_contains item "status") ;;
  status <-
    (if (has_status : bool) then lift (py_getitem item "status")
     else
       has_contractStatus <- lift (py_contains item "contractStatus") ;;
       if (has_contractStatus : bool) then lift (py_getitem item "contractStatus")
       else ret (PStr "unknown")) ;;
  let row := dict_set row "status" status in
  underlyingType <- lift (py_get item "underlyingType" PNone) ;;
  let row := dict_set row "underlyingType" underlyingType in
  contractType <- lift (py_get item "contractType" PNone) ;;
  let row := dict_set row "contractType" contractType in
  filters <- lift (py_getitem item "filters") ;;
  filters <- lift (py_iter filters) ;;
  for_each usdfut_filter row filters.

(** Body of the symbol loop, lines 132-192; an item that is not classified
    is skipped by [continue]. *)
Definition usdfut_item (venue : string) (rows : list dict) (item : pyval)
  : M (list dict) :=
  baseAsset <- lift (py_getitem item "baseAsset") ;;
  quoteAsset <- lift (py_getitem item "quoteAsset") ;;
  let asset_id_root := format_slash baseAsset quoteAsset in
  symbol <- lift (py_getitem item "symbol") ;;
  let row := dict_set [] "symbol" symbol in
  contractType <- lift (py_getitem item "contractType") ;;
  classified <- normalise_contractType contractType ;;
  match fst classified with
  | None =>
      emit (LogInfo ("skipping asset '" ++ py_str symbol ++ "', assetType is None")) ;;
      ret rows
  | Some assetType =>
      row <- usdfut_row venue item row asset_id_root symbol assetType ;;
      ret (rows ++ [row])%list
  end.

Definition parse_binance_usdfut_exchange_info (fn : string) (data : pyval)
           (venue : string) : M (list dict) :=
  emit (LogInfo ("reading file '" ++ fn ++ "'")) ;;
  symbols <- lift (py_getitem data "symbols") ;;
  n <- lift (py_len symbols) ;;
  emit (LogInfo ("file has " ++ PyStr.of_Z (Z.of_nat n) ++ " symbols")) ;;
  emit (LogInfoIgnoring usdfut_filters_to_ignore) ;;
  items <- lift (py_iter symbols) ;;
  for_each (usdfut_item venue) [] items.

(** ** Column Discovery *)

(** [set(s)] of a string: its characters. *)
Definition set_of_str (s : string) : list string :=
  map PyStr.chr (list_ascii_of_string s).

(** Body of the inner loop, lines 201-204; the state is
    [(header_cols, header_cols_unique)]. *)
Definition header_key (st : list string * list string) (key : string)
  : list string * list string :=
  let '(header_cols, header_cols_unique) := st in
  if existsb (String.eqb key) header_cols_unique then st
  else
    let header_cols := (header_cols ++ [key])%list in
    (header_cols, header_cols).

Definition extract_header_cols (rows : list dict) (index_field : string)
  : list string :=
  let header_cols := [index_field] in
  let header_cols_unique := set_of_str index_field in
  fst (fold_left (fun st row => fold_left header_key (dict_keys row) st)
                 rows (header_cols, header_cols_unique)).

(** ** CSV Writer *)

Definition newline : string := PyStr.chr (ascii_of_nat 10).

(** The number an [int] or [bool] compares as. *)
Definition py_num (v : pyval) : option Z :=
  match v with
  | PInt z => Some z
  | PBool true => Some 1%Z
  | PBool false => Some 0%Z
  | _ => None
  end.

(** [a == b] between two hashable values. *)
Definition py_key_eqb (a b : pyval) : bool :=
  match a, b with
  | PNone, PNone => true
  | PStr s, PStr t => String.eqb s t
  | _, _ =>
      match py_num a, py_num b with
      | Some x, Some y => Z.eqb x y
      | _, _ => false
      end
  end.

(** [a < b] between two hashable values. *)
Definition py_lt (a b : pyval) : result bool :=
  match a, b with
  | PStr s, PStr t => Ok (String.ltb s t)
  | _, _ =>
      match py_num a, py_num b with
      | Some x, Some y => Ok (Z.ltb x y)
      | _, _ => Raise TypeError
      end
  end.

Fixpoint sorted_insert (x : pyval) (l : list pyval) : result (list pyval) :=
  match l with
  | [] => Ok [x]
  | y :: l' =>
      let? before := py_lt y x in
      if (before : bool) then
        let? r := sorted_insert x l' in Ok (y :: r)
      else Ok (x :: l)
  end.

(** [sorted(l)] for pairwise distinct keys: only [<] is used, and a
    comparison between a string and a number, or with [None], raises
    [TypeError]. *)
Fixpoint py_sorted (l : list pyval) : result (list pyval) :=
  match l with
  | [] => Ok []
  | x :: l' => let? r := py_sorted l' in sorted_insert x r
  end.

(** The dict [lines], keyed by row id. *)
Definition lines_t : Type := list (pyval * list pyval).

Fixpoint lines_get (lines : lines_t) (k : pyval) : option (list pyval) :=
  match lines with
  | [] => None
  | (k', v) :: rest => if py_key_eqb k' k then Some v else lines_get rest k
  end.

Definition lines_keys (lines : lines_t) : list pyval := map fst lines.

(** Body of the row loop, lines 217-226. *)
Definition csv_row (index_field : string) (header_cols : list string)
           (lines : lines_t) (row : dict) : M lines_t :=
  row_id <-
    lift (match dict_get row index_field with
          | Some v => Ok v
          | None => Raise (KeyError index_field)
          end) ;;
  let line := map (fun col => dict_get_default row col (PStr EmptyString)) header_cols in
  if py_hashable row_id then
    match lines_get lines row_id with
    | Some _ =>
        emit (Stdout ("ignoring duplicate row for '" ++ py_str row_id ++ "'")) ;;
        ret lines
    | None => ret (lines ++ [(row_id, line)])%list
    end
  else lift (Raise TypeError).

Definition csv_text (delim : string) (line : list pyval) : string :=
  String.concat delim (map py_str line) ++ newline.

(** Returns the text written to the file [fn]. *)
Definition write_csv_file (fn : string) (rows : list dict)
           (index_field : string) (delim : string) : M string :=
  let header_cols := extract_header_cols rows index_field in
  lines <- for_each (csv_row index_field header_cols) [] rows ;;
  emit (LogInfo ("writing file '" ++ fn ++ "'")) ;;
  keys <- lift (py_sorted (lines_keys lines)) ;;
  ret (String.concat delim header_cols ++ newline
       ++ String.concat EmptyString
            (map (fun key =>
                    match lines_get lines key with
                    | Some line => csv_text delim line
                    | None => EmptyString
                    end) keys)).

(** [main] without the logging set-up; the three arguments are the parsed
    documents of the three files it reads. *)
Definition main (spot usdfut coinfut : pyval) : M string :=
  coin_rows <- parse_binance_spot_exchange_info "tmp/binance_exchange-info.json" spot ;;
  futures_rows <-
    parse_binance_usdfut_exchange_info "tmp/binance_usdfut_exchange-info.json"
                                       usdfut "binance_usdfut" ;;
  coinfut_rows <-
    parse_binance_usdfut_exchange_info "tmp/binance_coinfut_exchange-info.json"
                                       coinfut "binance_coinfut" ;;
  let all_rows := (coin_rows ++ futures_rows ++ coinfut_rows)%list in
  write_csv_file "tmp/binance_assets.csv" all_rows "instId" ",".

(** ** The claimed future code, as the specification words it *)

Module Spec.

Definition month_table : list string :=
  ["F"; "G"; "H"; "J"; "K"; "M"; "N"; "Q"; "U"; "V"; "X"; "Z"].

Definition digit (c : ascii) : nat := nat_of_ascii c - 48.

Definition char_at (n : nat) (s : string) : ascii :=
  match String.get n s with
  | Some c => c
  | None => zero
  end.

(** The month written by the digits MM of a date part YYMMDD. *)
Definition month (date : string) : nat :=
  10 * digit (char_at 2 date) + digit (char_at 3 date).

(** A date part YYMMDD: six decimal digits, month between 01 and 12. *)
Definition well_formed_date (date : string) : bool :=
  ((String.length date =? 6)%nat
   && forallb PyStr.is_digit (list_ascii_of_string date)
   && (1 <=? month date)%nat && (month date <=? 12)%nat)%bool.

(** "<monthCode><lastDigitOfYear>" *)
Definition future_code (date : string) : string :=
  nth (month date - 1) month_table EmptyString ++ PyStr.chr (char_at 1 date).

End Spec.

(** ** Enumeration of the characters *)

Definition all_ascii : list ascii := map ascii_of_nat (seq 0 256).

Definition two (a b : ascii) : string := String a (String b EmptyString).

(** ** Auxiliary notions used in the statements *)

(** The state of a fresh process: nothing warned about, nothing written. *)
Definition initial_world : world := mkWorld [] [].

(** The world after the further diagnostics [es]. *)
Definition after (w : world) (es : list event) : world :=
  mkWorld (log_warn_once_msgs w) (emitted w ++ es)%list.

(** The row keys the filter loops assign. *)
Definition filter_written : list string :=
  ["minQty"; "maxQty"; "lotQty"; "minNotional"; "tickSize"; "maxNumOrders"].

(** The raw items of a document: what the symbol loop iterates over. *)
Definition raw_items (data : pyval) : result (list pyval) :=
  let? symbols := py_getitem data "symbols" in py_iter symbols.

(** The warnings among the diagnostics, in order. *)
Fixpoint warnings (es : list event) : list string :=
  match es with
  | [] => []
  | LogWarning msg :: es' => msg :: warnings es'
  | _ :: es' => warnings es'
  end.

(** What the derivative normaliser does with the two pass-through fields of
    a raw item [d] in its record [row]. *)
Definition passes_through (d row : dict) : Prop :=
  dict_get row "underlyingType"
  = Some (dict_get_default d "underlyingType" PNone)
  /\ exists ct, dict_get d "contractType" = Some ct
                /\ dict_get row "contractType" = Some ct.

(** Field [k] is in the record exactly when it is in the raw item. *)
Definition conditionally_present (k : string) (d row : dict) : Prop :=
  dict_has row k = true <-> dict_has d k = true.

(** A perpetual raw item of the USD-margined segment without the optional
    field [underlyingType]. *)
Definition perp_item_without_underlyingType : dict :=
  [ ("symbol", PStr "BTCUSDT"); ("baseAsset", PStr "BTC");
    ("quoteAsset", PStr "USDT"); ("marginAsset", PStr "USDT");
    ("contractType", PStr "PERPETUAL"); ("quotePrecision", PInt 8);
    ("baseAssetPrecision", PInt 8); ("status", PStr "TRADING");
    ("filters", PList []) ].

(** The record of [perp_item_without_underlyingType] in the segment
    "binance_usdfut". *)
Definition perp_record_without_underlyingType : dict :=
  [ ("symbol", PStr "BTCUSDT"); ("instId", PStr "BTC/USDT.PF.BNC");
    ("type", PStr "perp"); ("venue", PStr "binance_usdfut");
    ("baseAsset", PStr "BTC"); ("quoteAsset", PStr "USDT");
    ("marginAsset", PStr "USDT"); ("quoteAssetPrecision", PInt 8);
    ("baseAssetPrecision", PInt 8); ("status", PStr "TRADING");
    ("underlyingType", PNone); ("contractType", PStr "PERPETUAL") ].

(** A raw item that the classifier takes for a dated future, with native
    symbol [s]. *)
Definition dated_future (d : dict) (s : string) : Prop :=
  (exists base, dict_get d "baseAsset" = Some base)
  /\ (exists quote, dict_get d "quoteAsset" = Some quote)
  /\ dict_get d "symbol" = Some (PStr s)
  /\ (dict_get d "contractType" = Some (PStr "CURRENT_QUARTER")
      \/ dict_get d "contractType" = Some (PStr "NEXT_QUARTER")).

(** A dated future whose symbol carries a five-character date. *)
Definition future_item_short_date : dict :=
  [ ("symbol", PStr "X_12345"); ("baseAsset", PStr "X");
    ("quoteAsset", PStr "USD"); ("contractType", PStr "CURRENT_QUARTER") ].

(** A spot fixture: one symbol with the three filters. *)
Definition spot_fixture_price : dict :=
  [ ("filterType", PStr "PRICE_FILTER"); ("minPrice", PStr "0.01000000");
    ("maxPrice", PStr "1000000.00000000"); ("tickSize", PStr "0.01000000") ].

Definition spot_fixture_lot : dict :=
  [ ("filterType", PStr "LOT_SIZE"); ("minQty", PStr "0.00001000");
    ("maxQty", PStr "9000.00000000"); ("stepSize", PStr "0.00001000") ].

Definition spot_fixture_notional : dict :=
  [ ("filterType", PStr "MIN_NOTIONAL"); ("minNotional", PStr "10.00000000") ].

Definition spot_fixture_filters : list pyval :=
  [ PDict spot_fixture_price; PDict spot_fixture_lot; PDict spot_fixture_notional ].

Definition spot_fixture_item : dict :=
  [ ("symbol", PStr "BTCUSDT"); ("status", PStr "TRADING");
    ("baseAsset", PStr "BTC"); ("baseAssetPrecision", PInt 8);
    ("quoteAsset", PStr "USDT"); ("quoteAssetPrecision", PInt 8);
    ("filters", PList spot_fixture_filters) ].

Definition spot_fixture : pyval :=
  PDict [ ("timezone", PStr "UTC"); ("symbols", PList [PDict spot_fixture_item]) ].

(** The warn-once discipline: no warning text was written twice, and every
    warning written is recorded in the set. *)
Definition warn_once_inv (w : world) : Prop :=
  NoDup (warnings (emitted w))
  /\ incl (warnings (emitted w)) (log_warn_once_msgs w).

(** A computation that keeps a property of the world, whatever it returns. *)
Definition preserves {A : Type} (P : world -> Prop) (m : M A) : Prop :=
  forall w r w', m w = (r, w') -> P w -> P w'.

(** A perpetual of the coin-margined segment. *)
Definition coinfut_perp_item : dict :=
  [ ("symbol", PStr "BTCUSD_PERP"); ("baseAsset", PStr "BTC");
    ("quoteAsset", PStr "USD"); ("marginAsset", PStr "BTC");
    ("contractType", PStr "PERPETUAL"); ("quotePrecision", PInt 8);
    ("baseAssetPrecision", PInt 8); ("contractStatus", PStr "TRADING");
    ("underlyingType", PStr "COIN"); ("filters", PList []) ].

Definition coinfut_perp_record : dict :=
  [ ("symbol", PStr "BTCUSD_PERP"); ("instId", PStr "BTC/USD.BNC");
    ("type", PStr "perp"); ("venue", PStr "binance_coinfut");
    ("baseAsset", PStr "BTC"); ("quoteAsset", PStr "USD");
    ("marginAsset", PStr "BTC"); ("quoteAssetPrecision", PInt 8);
    ("baseAssetPrecision", PInt 8); ("status", PStr "TRADING");
    ("underlyingType", PStr "COIN"); ("contractType", PStr "PERPETUAL") ].

(** A raw item, readable by both normalisers, whose only filter has the
    tag "FOO", which neither handles nor ignores; and a document with three
    such items. *)
Definition item_with_unknown_filter (symbol : string) : pyval :=
  PDict [ ("symbol", PStr symbol); ("baseAsset", PStr "BTC");
          ("quoteAsset", PStr "USDT"); ("marginAsset", PStr "USDT");
          ("contractType", PStr "PERPETUAL"); ("status", PStr "TRADING");
          ("quotePrecision", PInt 8); ("quoteAssetPrecision", PInt 8);
          ("baseAssetPrecision", PInt 8);
          ("filters", PList [PDict [("filterType", PStr "FOO")]]) ].

Definition three_unknown_filters : pyval :=
  PDict [ ("symbols", PList [ item_with_unknown_filter "AUSDT";
                              item_with_unknown_filter "BUSDT";
                              item_with_unknown_filter "CUSDT" ]) ].

(** ** Notions used to state the CSV writer's behaviour *)

(** A field as the writer renders it: its [str], empty when missing. *)
Definition csv_cell (row : dict) (col : string) : string :=
  match dict_get row col with
  | Some v => py_str v
  | None => EmptyString
  end.

(** The record's key field holds the string [k]. *)
Definition has_key (index_field k : string) (row : dict) : bool :=
  match dict_get row index_field with
  | Some v => py_key_eqb v (PStr k)
  | None => false
  end.

(** The first record, in input order, whose key is [k]. *)
Definition first_with_key (index_field k : string) (rows : list dict)
  : option dict :=
  find (has_key index_field k) rows.

(** How many records have the key [k]. *)
Definition count_with_key (index_field k : string) (rows : list dict) : nat :=
  List.length (filter (has_key index_field k) rows).

Definition str_lt (a b : string) : Prop := String.ltb a b = true.

(** The key of a record whose key field holds a string. *)
Definition str_key (index_field : string) (row : dict) : string :=
  match dict_get row index_field with
  | Some (PStr s) => s
  | _ => EmptyString
  end.

Fixpoint assoc (k : string) (kept : list (string * dict)) : option dict :=
  match kept with
  | [] => None
  | (k', r) :: rest => if String.eqb k' k then Some r else assoc k rest
  end.

(** The records kept so far, by key, and the keys dropped, when all keys
    are strings: the pure content of the loop of lines 217-226. *)
Definition keep_step (index_field : string) (kept : list (string * dict))
           (row : dict) : list (string * dict) :=
  let k := str_key index_field row in
  match assoc k kept with
  | Some _ => kept
  | None => (kept ++ [(k, row)])%list
  end.

Fixpoint dropped_keys (index_field : string) (kept : list (string * dict))
         (rows : list dict) : list string :=
  match rows with
  | [] => []
  | row :: rest =>
      let k := str_key index_field row in
      match assoc k kept with
      | Some _ => k :: dropped_keys index_field kept rest
      | None => dropped_keys index_field (kept ++ [(k, row)])%list rest
      end
  end.

Definition csv_line (header_cols : list string) (row : dict) : list pyval :=
  map (fun col => dict_get_default row col (PStr EmptyString)) header_cols.

Definition duplicate_diagnostic (k : string) : event :=
  Stdout ("ignoring duplicate row for '" ++ k ++ "'").

Definition string_keyed (index_field : string) (row : dict) : Prop :=
  exists s, dict_get row index_field = Some (PStr s).

(** An entry of the dict [lines] for a kept record. *)
Definition csv_enc (header_cols : list string) (kr : string * dict)
  : pyval * list pyval :=
  (PStr (fst kr), csv_line header_cols (snd kr)).

(** What the kept records are, after the records [pre] have been seen. *)
Definition kept_inv (index_field : string) (pre : list dict)
           (kept : list (string * dict)) : Prop :=
  NoDup (map fst kept)
  /\ (forall k r, In (k, r) kept -> first_with_key index_field k pre = Some r)
  /\ (forall row, In row pre -> In (str_key index_field row) (map fst kept)).

(** The text of a data row, as the specification words it: the columns in
    header order, joined by the delimiter, missing fields empty. *)
Definition csv_data_row (delim : string) (header_cols : list string)
           (row : dict) : string :=
  String.concat delim (map (csv_cell row) header_cols) ++ newline.

(** Three records, two of them with the same key. *)
Definition csv_fixture : list dict :=
  [ [("symbol", PStr "ETHUSDT"); ("instId", PStr "ETH/USDT.BNC"); ("minQty", PStr "0.001")];
    [("symbol", PStr "BTCUSDT"); ("instId", PStr "BTC/USDT.BNC"); ("tickSize", PStr "0.01")];
    [("symbol", PStr "ETHUSDT2"); ("instId", PStr "ETH/USDT.BNC"); ("minQty", PStr "0.002")] ].


(** * Properties *)

(** ** Strings: splitting and [int] on two characters *)

Lemma all_ascii_complete (c : ascii) : In c all_ascii.
Proof.
  assert (H : existsb (Ascii.eqb c) all_ascii = true).
  { destruct c as [[] [] [] [] [] [] [] []]; vm_compute; reflexivity. }
  apply existsb_exists in H. destruct H as [d [Hin Heq]].
  apply Ascii.eqb_eq in Heq. subst d. exact Hin.
Qed.

Lemma forall_pairs_ascii (P : ascii -> ascii -> bool) :
  forallb (fun a => forallb (P a) all_ascii) all_ascii = true ->
  forall a b, P a b = true.
Proof.
  intros H a b.
  rewrite forallb_forall in H. specialize (H a (all_ascii_complete a)).
  rewrite forallb_forall in H. exact (H b (all_ascii_complete b)).
Qed.

(** [int] of two characters is never below -9. *)
Lemma int_two_lower (a b : ascii) (m : Z) :
  PyStr.int (two a b) = Some m -> (-9 <= m)%Z.
Proof.
  pose (P := fun a b => match PyStr.int (two a b) with
                        | Some m => (-9 <=? m)%Z
                        | None => true
                        end).
  assert (H : P a b = true) by (apply forall_pairs_ascii; vm_compute; reflexivity).
  unfold P in H. intros E. rewrite E in H. lia.
Qed.

(** [int] of two decimal digits is the number they write. *)
Lemma int_two_digits (a b : ascii) :
  PyStr.is_digit a = true -> PyStr.is_digit b = true ->
  PyStr.int (two a b) = Some (10 * PyStr.digit_val a + PyStr.digit_val b)%Z.
Proof.
  pose (P := fun a b =>
               if (PyStr.is_digit a && PyStr.is_digit b)%bool then
                 match PyStr.int (two a b) with
                 | Some m => (m =? 10 * PyStr.digit_val a + PyStr.digit_val b)%Z
                 | None => false
                 end
               else true).
  assert (H : P a b = true) by (apply forall_pairs_ascii; vm_compute; reflexivity).
  unfold P in H. intros Ha Hb. rewrite Ha, Hb in H. simpl in H.
  destruct (PyStr.int (two a b)); [|discriminate].
  apply Z.eqb_eq in H. now subst.
Qed.

Lemma split_nonempty (sep : ascii) (s : string) : PyStr.split sep s <> [].
Proof.
  destruct s as [|c s]; simpl; [discriminate|].
  destruct (Ascii.eqb c sep); [discriminate|].
  destruct (PyStr.split sep s); discriminate.
Qed.

Lemma split_without_sep (sep : ascii) (s : string) :
  PyStr.contains_char sep s = false -> PyStr.split sep s = [s].
Proof.
  induction s as [|c s IH]; simpl; intros H; [reflexivity|].
  apply orb_false_iff in H. destruct H as [Hc Hs].
  rewrite Ascii.eqb_sym, Hc. now rewrite (IH Hs).
Qed.

Lemma split_at_first_sep (sep : ascii) (root rest : string) :
  PyStr.contains_char sep root = false ->
  PyStr.split sep (root ++ String sep rest) = root :: PyStr.split sep rest.
Proof.
  induction root as [|c root IH]; simpl; intros H.
  - now rewrite Ascii.eqb_refl.
  - apply orb_false_iff in H. destruct H as [Hc Hs].
    rewrite Ascii.eqb_sym, Hc. now rewrite (IH Hs).
Qed.

Lemma split_root_date (root date : string) :
  PyStr.contains_char "_" root = false ->
  PyStr.contains_char "_" date = false ->
  PyStr.split "_" (root ++ "_" ++ date) = [root; date].
Proof.
  intros Hr Hd. change ("_" ++ date) with (String "_" date).
  rewrite (split_at_first_sep _ _ _ Hr). now rewrite (split_without_sep _ _ Hd).
Qed.

Lemma length_6_inv (s : string) :
  String.length s = 6 ->
  exists y1 y2 m1 m2 d1 d2,
    s = String y1 (String y2 (String m1 (String m2 (String d1 (String d2 EmptyString))))).
Proof.
  intros H.
  destruct s as [|y1 [|y2 [|m1 [|m2 [|d1 [|d2 [|x s]]]]]]]; try discriminate.
  now exists y1, y2, m1, m2, d1, d2.
Qed.

Lemma index_raises_only_IndexError (s : string) (i : Z) (e : exn) :
  PyStr.index s i = Raise e -> e = IndexError.
Proof.
  unfold PyStr.index.
  repeat match goal with
         | |- context [if ?b then _ else _] => destruct b
         | |- context [match String.get ?n ?t with _ => _ end] =>
             destruct (String.get n t)
         end; intros H; inversion H; reflexivity.
Qed.

(** The month table is indexed without error exactly from -11 to 12. *)
Lemma month_lookup_fails_iff (month : Z) :
  (exists e, PyStr.index month_codes (month - 1) = Raise e)
  <-> (month < -11 \/ 13 <= month)%Z.
Proof.
  split.
  - intros [e H].
    destruct (Z_lt_ge_dec month (-11)) as [|Hlo]; [now left|].
    destruct (Z_le_gt_dec 13 month) as [|Hhi]; [now right|].
    exfalso.
    assert (Hm : In month [-11; -10; -9; -8; -7; -6; -5; -4; -3; -2; -1; 0;
                           1; 2; 3; 4; 5; 6; 7; 8; 9; 10; 11; 12]%Z).
    { simpl. lia. }
    simpl in Hm.
    repeat (destruct Hm as [Hm|Hm]; [subst month; vm_compute in H; discriminate|]).
    exact Hm.
  - intros H. exists IndexError. unfold PyStr.index.
    change (Z.of_nat (String.length month_codes)) with 12%Z.
    destruct ((0 <=? month - 1)%Z && (month - 1 <? 12)%Z)%bool eqn:E1.
    { apply andb_true_iff in E1. lia. }
    destruct ((- (12) <=? month - 1)%Z && (month - 1 <? 0)%Z)%bool eqn:E2.
    { apply andb_true_iff in E2. lia. }
    reflexivity.
Qed.

(** ** Future-Code Simplifier *)

Lemma simplify_two_parts (symbol root date : string) :
  PyStr.split "_" symbol = [root; date] ->
  String.length date = 6 ->
  simplify_future_native_code symbol =
    match PyStr.int (PyStr.slice 2 4 date) with
    | None => Raise ValueError
    | Some month =>
        let? month_code := PyStr.index month_codes (month - 1) in
        let? y := PyStr.index (PyStr.slice 0 2 date) 1 in
        Ok (String.concat "." [month_code ++ y; "BNC"])
    end.
Proof.
  intros Hs Hl. unfold simplify_future_native_code.
  rewrite Hs. cbn [List.length Nat.eqb negb nth]. rewrite Hl. reflexivity.
Qed.

Lemma digit_not_underscore (c : ascii) :
  PyStr.is_digit c = true -> Ascii.eqb "_" c = false.
Proof.
  intros H. destruct (Ascii.eqb "_" c) eqn:E; [|reflexivity].
  apply Ascii.eqb_eq in E. subst c. discriminate H.
Qed.

Lemma digits_without_underscore (s : string) :
  forallb PyStr.is_digit (list_ascii_of_string s) = true ->
  PyStr.contains_char "_" s = false.
Proof.
  induction s as [|c s IH];
    cbn [PyStr.contains_char list_ascii_of_string forallb]; intros H;
    [reflexivity|].
  apply andb_true_iff in H. destruct H as [Hc Hs].
  now rewrite (digit_not_underscore _ Hc), (IH Hs).
Qed.

(** The month letter the code looks up is the table's entry, for the twelve
    months written with two digits. *)
Lemma month_letter_two_digits (a b : ascii) :
  PyStr.is_digit a = true -> PyStr.is_digit b = true ->
  (1 <= 10 * Spec.digit a + Spec.digit b)%nat ->
  (10 * Spec.digit a + Spec.digit b <= 12)%nat ->
  exists month,
    PyStr.int (two a b) = Some month /\
    PyStr.index month_codes (month - 1) =
      Ok (nth (10 * Spec.digit a + Spec.digit b - 1) Spec.month_table EmptyString).
Proof.
  pose (P := fun a b =>
               let n := (10 * Spec.digit a + Spec.digit b)%nat in
               if (PyStr.is_digit a && PyStr.is_digit b
                   && (1 <=? n)%nat && (n <=? 12)%nat)%bool then
                 match PyStr.int (two a b) with
                 | Some m =>
                     match PyStr.index month_codes (m - 1) with
                     | Ok c => String.eqb c (nth (n - 1) Spec.month_table EmptyString)
                     | Raise _ => false
                     end
                 | None => false
                 end
               else true).
  assert (H : P a b = true) by (apply forall_pairs_ascii; vm_compute; reflexivity).
  intros Ha Hb Hlo Hhi. unfold P in H. cbv zeta in H.
  rewrite Ha, Hb in H.
  apply Nat.leb_le in Hlo, Hhi. rewrite Hlo, Hhi in H. cbn [andb] in H.
  destruct (PyStr.int (two a b)) as [m|]; [|discriminate].
  exists m. split; [reflexivity|].
  destruct (PyStr.index month_codes (m - 1)) as [c|]; [|discriminate].
  apply String.eqb_eq in H. now subst.
Qed.

(** C3, as amended: for every symbol [root_YYMMDD] whose root has no
    underscore and whose date part is six decimal digits with a month from
    01 to 12, the simplifier returns the month code of the table
    F G H J K M N Q U V X Z, the last digit of the year and the venue
    suffix ".BNC": six characters, not two.  In particular
    "BTCUSDT_240329" gives "H4.BNC". *)
Theorem C3_simplify_well_formed (root date : string) :
  PyStr.contains_char "_" root = false ->
  Spec.well_formed_date date = true ->
  simplify_future_native_code (root ++ "_" ++ date)
  = Ok (Spec.future_code date ++ ".BNC")
  /\ String.length (Spec.future_code date ++ ".BNC") = 6
  /\ simplify_future_native_code "BTCUSDT_240329" = Ok "H4.BNC".
Proof.
  intros Hroot Hwf. unfold Spec.well_formed_date in Hwf.
  repeat (apply andb_true_iff in Hwf; destruct Hwf as [Hwf ?]).
  apply Nat.eqb_eq in Hwf.
  destruct (length_6_inv _ Hwf) as (y1 & y2 & m1 & m2 & d1 & d2 & ->).
  match goal with H : forallb _ _ = true |- _ => rename H into Hdig end.
  pose proof (digits_without_underscore _ Hdig) as Hdate.
  simpl in Hdig.
  repeat (apply andb_true_iff in Hdig; destruct Hdig as [? Hdig]).
  match goal with
  | H1 : (1 <=? _)%nat = true, H2 : (_ <=? 12)%nat = true |- _ =>
      apply Nat.leb_le in H1, H2;
      change (1 <= 10 * Spec.digit m1 + Spec.digit m2)%nat in H1;
      change (10 * Spec.digit m1 + Spec.digit m2 <= 12)%nat in H2;
      rename H1 into Hlo; rename H2 into Hhi
  end.
  destruct (month_letter_two_digits m1 m2) as (mon & Hint & Hidx); try assumption.
  split; [|split].
  - rewrite (simplify_two_parts _ root _ (split_root_date _ _ Hroot Hdate) Hwf).
    change (PyStr.slice 2 4 _) with (two m1 m2). rewrite Hint.
    rewrite Hidx. reflexivity.
  - unfold Spec.future_code, Spec.month, Spec.char_at. simpl String.get.
    remember (10 * Spec.digit m1 + Spec.digit m2 - 1)%nat as n eqn:En.
    assert (Hn : (n < 12)%nat) by lia.
    do 12 (destruct n as [|n]; [reflexivity|]). lia.
  - reflexivity.
Qed.

Lemma C3_simplify_well_formed_witness :
  simplify_future_native_code ("ETHUSD" ++ "_" ++ "251226")
  = Ok (Spec.future_code "251226" ++ ".BNC")
  /\ String.length (Spec.future_code "251226" ++ ".BNC") = 6
  /\ simplify_future_native_code "BTCUSDT_240329" = Ok "H4.BNC".
Proof.
  apply (C3_simplify_well_formed "ETHUSD" "251226"); reflexivity.
Defined.

(** C3, as claimed, fails: on "BTCUSDT_240329", a well-formed symbol whose
    claimed code is "H4", the simplifier does not return "H4". *)
Lemma C3_not_two_characters :
  PyStr.contains_char "_" "BTCUSDT" = false
  /\ Spec.well_formed_date "240329" = true
  /\ Spec.future_code "240329" = "H4"
  /\ simplify_future_native_code "BTCUSDT_240329" <> Ok "H4".
Proof.
  repeat split. vm_compute. discriminate.
Qed.

Lemma str_app_assoc (a b c : string) : (a ++ b) ++ c = a ++ b ++ c.
Proof. induction a as [|x a IH]; simpl; [reflexivity | now rewrite IH]. Qed.

(** The three ways through the simplifier's two checks. *)
Lemma simplify_cases (symbol : string) :
  (List.length (PyStr.split "_" symbol) <> 2
   /\ exists msg, simplify_future_native_code symbol = Raise (FormatError msg))
  \/ (exists root date,
        PyStr.split "_" symbol = [root; date] /\ String.length date <> 6
        /\ exists msg, simplify_future_native_code symbol = Raise (FormatError msg))
  \/ (exists root y1 y2 m1 m2 d1 d2,
        let date := String y1 (String y2 (String m1 (String m2
                      (String d1 (String d2 EmptyString))))) in
        PyStr.split "_" symbol = [root; date]
        /\ simplify_future_native_code symbol =
             match PyStr.int (two m1 m2) with
             | None => Raise ValueError
             | Some month =>
                 let? month_code := PyStr.index month_codes (month - 1) in
                 Ok (month_code ++ PyStr.chr y2 ++ ".BNC")
             end).
Proof.
  destruct (Nat.eq_dec (List.length (PyStr.split "_" symbol)) 2) as [E2|N2].
  - destruct (PyStr.split "_" symbol) as [|root [|date [|x l]]] eqn:Es;
      try discriminate E2.
    destruct (Nat.eq_dec (String.length date) 6) as [E6|N6].
    + right; right.
      destruct (length_6_inv _ E6) as (y1 & y2 & m1 & m2 & d1 & d2 & ->).
      exists root, y1, y2, m1, m2, d1, d2. cbv zeta. split; [reflexivity|].
      rewrite (simplify_two_parts _ _ _ Es E6).
      change (PyStr.slice 2 4 _) with (two m1 m2).
      destruct (PyStr.int (two m1 m2)) as [month|]; [|reflexivity].
      destruct (PyStr.index month_codes (month - 1)) as [c|e]; [|reflexivity].
      cbn [rbind]. change (PyStr.index _ 1) with (Ok (PyStr.chr y2)).
      cbn [rbind String.concat]. now rewrite str_app_assoc.
    + right; left. exists root, date. repeat split; [assumption|].
      unfold simplify_future_native_code. rewrite Es.
      cbn [List.length Nat.eqb negb nth].
      apply Nat.eqb_neq in N6. rewrite N6. cbn [negb]. eauto.
  - left. split; [assumption|].
    unfold simplify_future_native_code.
    apply Nat.eqb_neq in N2. rewrite N2. cbn [negb]. eauto.
Qed.

Lemma simplify_format_error_iff (symbol : string) :
  (exists msg, simplify_future_native_code symbol = Raise (FormatError msg))
  <-> (List.length (PyStr.split "_" symbol) <> 2
       \/ String.length (nth 1 (PyStr.split "_" symbol) EmptyString) <> 6).
Proof.
  destruct (simplify_cases symbol)
    as [[N2 Hm] | [(root & date & Es & N6 & Hm)
                  | (root & y1 & y2 & m1 & m2 & d1 & d2 & Es & Hr)]].
  - split; [now left | intros _; exact Hm].
  - split; [intros _; right; now rewrite Es | intros _; exact Hm].
  - cbv zeta in Es. split.
    + intros [msg Hmsg]. exfalso. rewrite Hr in Hmsg.
      destruct (PyStr.int (two m1 m2)) as [month|]; [|discriminate].
      destruct (PyStr.index month_codes (month - 1)) as [c|e] eqn:Ei;
        [discriminate|].
      apply index_raises_only_IndexError in Ei. subst e. discriminate.
    + rewrite Es. cbn. intros [H|H]; now elim H.
Qed.

Lemma simplify_index_error_iff (symbol : string) :
  simplify_future_native_code symbol = Raise IndexError
  <-> exists root date month,
        PyStr.split "_" symbol = [root; date]
        /\ String.length date = 6
        /\ PyStr.int (PyStr.slice 2 4 date) = Some month
        /\ (13 <= month)%Z.
Proof.
  destruct (simplify_cases symbol)
    as [[N2 [msg Hm]] | [(root & date & Es & N6 & [msg Hm])
                        | (root & y1 & y2 & m1 & m2 & d1 & d2 & Es & Hr)]].
  - rewrite Hm. split; [discriminate|].
    intros (r & d & m & Es & _). rewrite Es in N2. now elim N2.
  - rewrite Hm. split; [discriminate|].
    intros (r & d & m & Es' & E6 & _). rewrite Es in Es'.
    injection Es' as _ <-. contradiction.
  - cbv zeta in Es. rewrite Hr. split.
    + intros H.
      destruct (PyStr.int (two m1 m2)) as [month|] eqn:Ei; [|discriminate].
      destruct (PyStr.index month_codes (month - 1)) as [c|e] eqn:Ex;
        [discriminate|].
      eexists _, _, month.
      split; [exact Es|]. split; [reflexivity|]. split; [exact Ei|].
      pose proof (int_two_lower _ _ _ Ei).
      destruct (proj1 (month_lookup_fails_iff month)); eauto. lia.
    + intros (r & d & m & Es' & E6 & Ei & Hm). rewrite Es in Es'.
      injection Es' as _ <-. change (PyStr.slice 2 4 _) with (two m1 m2) in Ei.
      rewrite Ei.
      destruct (proj2 (month_lookup_fails_iff m)) as [e He]; [now right|].
      rewrite He. cbn [rbind].
      now rewrite (index_raises_only_IndexError _ _ _ He).
Qed.

(** C10: a symbol [root_YYMMDD] whose month digits are "00" does not make
    the simplifier fail: the month table is indexed at -1 and the December
    code "Z" comes back; and the table lookup fails ([IndexError]) exactly
    for the symbols that pass both checks and whose month reads as 13 or
    more. *)
Theorem C10_month_00_is_december :
  (forall root date : string,
      PyStr.contains_char "_" root = false ->
      PyStr.contains_char "_" date = false ->
      String.length date = 6 ->
      PyStr.slice 2 4 date = "00" ->
      PyStr.index month_codes (0 - 1) = Ok "Z"
      /\ simplify_future_native_code (root ++ "_" ++ date)
         = Ok ("Z" ++ PyStr.chr (Spec.char_at 1 date) ++ ".BNC"))
  /\ (forall symbol : string,
         simplify_future_native_code symbol = Raise IndexError
         <-> exists root date month,
               PyStr.split "_" symbol = [root; date]
               /\ String.length date = 6
               /\ PyStr.int (PyStr.slice 2 4 date) = Some month
               /\ (13 <= month)%Z).
Proof.
  split; [|exact simplify_index_error_iff].
  intros root date Hroot Hdate Hlen H00. split; [reflexivity|].
  rewrite (simplify_two_parts _ root _ (split_root_date _ _ Hroot Hdate) Hlen).
  rewrite H00.
  destruct (length_6_inv _ Hlen) as (y1 & y2 & m1 & m2 & d1 & d2 & ->).
  reflexivity.
Qed.

Lemma C10_month_00_is_december_witness :
  PyStr.index month_codes (0 - 1) = Ok "Z"
  /\ simplify_future_native_code ("BTCUSD" ++ "_" ++ "240029") = Ok "Z4.BNC".
Proof.
  apply (proj1 C10_month_00_is_december "BTCUSD" "240029"); reflexivity.
Defined.

(** ** Running the monad *)

Lemma bind_lift_Ok {A B : Type} (r : result A) (a : A) (k : A -> M B) (w : world) :
  r = Ok a -> bind (lift r) k w = k a w.
Proof. intros ->. reflexivity. Qed.

Lemma bind_lift_Raise {A B : Type} (r : result A) (e : exn) (k : A -> M B) (w : world) :
  r = Raise e -> bind (lift r) k w = (Raise e, w).
Proof. intros ->. reflexivity. Qed.

Lemma bind_Ok {A B : Type} (m : M A) (k : A -> M B) (w w1 : world) (a : A) :
  m w = (Ok a, w1) -> bind m k w = k a w1.
Proof. unfold bind. intros ->. reflexivity. Qed.

Lemma bind_Raise {A B : Type} (m : M A) (k : A -> M B) (w w1 : world) (e : exn) :
  m w = (Raise e, w1) -> bind m k w = (Raise e, w1).
Proof. unfold bind. intros ->. reflexivity. Qed.

Lemma bind_Ok_inv {A B : Type} (m : M A) (k : A -> M B) (w w' : world) (b : B) :
  bind m k w = (Ok b, w') ->
  exists a w1, m w = (Ok a, w1) /\ k a w1 = (Ok b, w').
Proof.
  unfold bind. destruct (m w) as [[a|e] w1]; intros H.
  - now exists a, w1.
  - discriminate.
Qed.

Lemma lift_Ok_inv {A : Type} (r : result A) (w w' : world) (a : A) :
  lift r w = (Ok a, w') -> r = Ok a /\ w' = w.
Proof. unfold lift. intros H. injection H as -> ->. now split. Qed.

Lemma ret_inv {A : Type} (a b : A) (w w' : world) :
  ret a w = (Ok b, w') -> b = a /\ w' = w.
Proof. unfold ret. intros H. injection H as -> ->. now split. Qed.

Lemma py_getitem_dict (d : dict) (k : string) (v : pyval) :
  dict_get d k = Some v -> py_getitem (PDict d) k = Ok v.
Proof. unfold py_getitem. now intros ->. Qed.

Lemma py_getitem_Ok_inv (item : pyval) (k : string) (v : pyval) :
  py_getitem item k = Ok v -> exists d, item = PDict d /\ dict_get d k = Some v.
Proof.
  destruct item as [| | | | |d]; try discriminate. unfold py_getitem.
  destruct (dict_get d k) as [x|] eqn:E; [|discriminate].
  intros H. injection H as ->. now exists d.
Qed.

(** Invert a successful run, one [bind] at a time. *)
Ltac run_inv H :=
  repeat match type of H with
         | bind _ _ _ = (Ok _, _) =>
             let a := fresh "a" in
             let w1 := fresh "w" in
             let H1 := fresh "Hrun" in
             apply bind_Ok_inv in H; destruct H as (a & w1 & H1 & H);
             try (apply lift_Ok_inv in H1; destruct H1 as [H1 ->])
         end.

(** A loop stops at the first iteration that raises. *)
Lemma for_each_raises {A S : Type} (body : S -> A -> M S) (x : A) (l : list A) :
  (forall s w, exists e w', body s x w = (Raise e, w')) ->
  In x l ->
  forall s w, exists e w', for_each body s l w = (Raise e, w').
Proof.
  intros Hx. induction l as [|y l IH]; intros Hin s w; [destruct Hin|].
  cbn [for_each]. destruct (body s y w) as [[s1|e] w1] eqn:Ey.
  - rewrite (bind_Ok _ _ _ _ _ Ey). destruct Hin as [->|Hin].
    + destruct (Hx s w) as (e & w' & He). rewrite He in Ey. discriminate.
    + now apply IH.
  - rewrite (bind_Raise _ _ _ _ _ Ey). eauto.
Qed.

(** ** Dictionaries *)

Lemma dict_get_set_same (d : dict) (k : string) (v : pyval) :
  dict_get (dict_set d k v) k = Some v.
Proof.
  induction d as [|[k' v'] d IH]; cbn [dict_set dict_get].
  - now rewrite String.eqb_refl.
  - destruct (String.eqb k' k) eqn:E; cbn [dict_get]; rewrite E; auto.
Qed.

Lemma dict_get_set_other (d : dict) (k k' : string) (v : pyval) :
  k <> k' -> dict_get (dict_set d k v) k' = dict_get d k'.
Proof.
  intros Hk. induction d as [|[k0 v0] d IH]; cbn [dict_set dict_get].
  - apply String.eqb_neq in Hk. now rewrite Hk.
  - destruct (String.eqb k0 k) eqn:E; cbn [dict_get].
    + apply String.eqb_eq in E. subst k0.
      apply String.eqb_neq in Hk. now rewrite Hk.
    + destruct (String.eqb k0 k'); auto.
Qed.

(** ** Derivative normaliser: the pass-through fields *)

Lemma usdfut_filter_keeps (row row' : dict) (f : pyval) (w w' : world) (k : string) :
  ~ In k filter_written ->
  usdfut_filter row f w = (Ok row', w') ->
  dict_get row' k = dict_get row k.
Proof.
  intros Hk H. unfold usdfut_filter in H.
  apply bind_Ok_inv in H. destruct H as (ft & w1 & _ & H).
  assert (Hne : forall k0, In k0 filter_written -> k0 <> k)
    by (intros k0 H0 ->; contradiction).
  repeat match type of H with
         | (if ?b then _ else _) _ = _ => destruct b
         end;
    run_inv H;
    try (apply ret_inv in H; destruct H as [-> _]);
    repeat rewrite dict_get_set_other by (apply Hne; simpl; tauto);
    try reflexivity.
  - destruct a; cbv beta iota in H; run_inv H; cbv beta in H;
      apply ret_inv in H; destruct H as [HH _]; subst row'; reflexivity.
Qed.

Lemma usdfut_filters_keep (fs : list pyval) (k : string) :
  ~ In k filter_written ->
  forall (row row' : dict) (w w' : world),
    for_each usdfut_filter row fs w = (Ok row', w') ->
    dict_get row' k = dict_get row k.
Proof.
  intros Hk. induction fs as [|f fs IH]; intros row row' w w' H; cbn [for_each] in H.
  - apply ret_inv in H. destruct H as [-> _]. reflexivity.
  - apply bind_Ok_inv in H. destruct H as (row1 & w1 & Hf & H).
    rewrite (IH _ _ _ _ H). exact (usdfut_filter_keeps _ _ _ _ _ _ Hk Hf).
Qed.

Lemma py_get_Ok_inv (item : pyval) (k : string) (default v : pyval) :
  py_get item k default = Ok v ->
  exists d, item = PDict d /\ v = dict_get_default d k default.
Proof.
  destruct item as [| | | | |d]; try discriminate.
  intros H. injection H as <-. now exists d.
Qed.

Lemma usdfut_row_passthrough (venue : string) (item : pyval) (row row' : dict)
      (root : string) (symbol : pyval) (assetType : string) (w w' : world) :
  usdfut_row venue item row root symbol assetType w = (Ok row', w') ->
  exists d, item = PDict d
    /\ dict_get row' "underlyingType" = Some (dict_get_default d "underlyingType" PNone)
    /\ dict_get row' "contractType" = Some (dict_get_default d "contractType" PNone).
Proof.
  intros H. unfold usdfut_row in H.
  repeat match type of H with
         | bind (lift (py_get _ _ _)) _ _ = _ => fail 1
         | bind _ _ _ = (Ok _, _) =>
             let H1 := fresh "Hrun" in
             apply bind_Ok_inv in H; destruct H as (? & ? & H1 & H)
         end.
  run_inv H.
  match goal with
  | H1 : py_get item "underlyingType" PNone = Ok _,
    H2 : py_get item "contractType" PNone = Ok _ |- _ =>
      apply py_get_Ok_inv in H1, H2;
      destruct H1 as (d & -> & ->); destruct H2 as (d' & Hd & ->);
      injection Hd as <-
  end.
  exists d. split; [reflexivity|].
  assert (Hu : ~ In "underlyingType" filter_written)
    by (simpl; intuition discriminate).
  assert (Hc : ~ In "contractType" filter_written)
    by (simpl; intuition discriminate).
  split.
  - rewrite (usdfut_filters_keep _ _ Hu _ _ _ _ H).
    rewrite dict_get_set_other by discriminate. apply dict_get_set_same.
  - rewrite (usdfut_filters_keep _ _ Hc _ _ _ _ H). apply dict_get_set_same.
Qed.

Lemma usdfut_item_Ok_inv (venue : string) (rows rows' : list dict) (item : pyval)
      (w w' : world) :
  usdfut_item venue rows item w = (Ok rows', w') ->
  rows' = rows
  \/ exists d row, item = PDict d /\ rows' = (rows ++ [row])%list
                   /\ passes_through d row.
Proof.
  intros H. unfold usdfut_item in H.
  do 4 (let H1 := fresh "Hget" in
        apply bind_Ok_inv in H; destruct H as (? & ? & H1 & H);
        apply lift_Ok_inv in H1; destruct H1 as [H1 ->]).
  apply bind_Ok_inv in H. destruct H as (cls & w1 & _ & H).
  destruct (fst cls) as [assetType|].
  - right. apply bind_Ok_inv in H. destruct H as (row & w2 & Hrow & H).
    apply ret_inv in H. destruct H as [-> _].
    destruct (usdfut_row_passthrough _ _ _ _ _ _ _ _ _ Hrow) as (d & -> & Hu & Hc).
    exists d, row. repeat split; [exact Hu|].
    apply py_getitem_Ok_inv in Hget2. destruct Hget2 as (d' & Hd & Hct).
    injection Hd as <-. eexists. split; [exact Hct|].
    rewrite Hc. unfold dict_get_default. now rewrite Hct.
  - left. apply bind_Ok_inv in H. destruct H as (? & ? & _ & H).
    apply ret_inv in H. now destruct H.
Qed.

Lemma usdfut_loop_passthrough (venue : string) (all : list pyval) (items : list pyval) :
  incl items all ->
  forall (rows rows' : list dict) (w w' : world),
    for_each (usdfut_item venue) rows items w = (Ok rows', w') ->
    Forall (fun row => exists d, In (PDict d) all /\ passes_through d row) rows ->
    Forall (fun row => exists d, In (PDict d) all /\ passes_through d row) rows'.
Proof.
  induction items as [|item items IH]; intros Hincl rows rows' w w' H Hrows;
    cbn [for_each] in H.
  - apply ret_inv in H. now destruct H as [-> _].
  - apply bind_Ok_inv in H. destruct H as (rows1 & w1 & Hitem & H).
    apply (IH (fun x Hx => Hincl x (or_intror Hx)) _ _ _ _ H).
    destruct (usdfut_item_Ok_inv _ _ _ _ _ _ Hitem) as [-> | (d & row & -> & -> & Hp)];
      [assumption|].
    apply Forall_app. split; [assumption|].
    constructor; [|constructor]. exists d. split; [|exact Hp].
    apply Hincl. now left.
Qed.




(** ** Classification and skipping *)

Lemma py_eq_str_false (v : pyval) (s : string) :
  v <> PStr s -> py_eq_str v s = false.
Proof.
  destruct v as [| | |t| |]; try reflexivity. intros H. cbn [py_eq_str].
  apply String.eqb_neq. intros ->. now apply H.
Qed.

Lemma after_after (w : world) (es fs : list event) :
  after (after w es) fs = after w (es ++ fs)%list.
Proof. unfold after. cbn. now rewrite app_assoc. Qed.

Lemma emit_after (e : event) (w : world) : emit e w = (Ok tt, after w [e]).
Proof. reflexivity. Qed.

Lemma normalise_contractType_other (ct : pyval) (w : world) :
  ct <> PStr "PERPETUAL" -> ct <> PStr "CURRENT_QUARTER" ->
  ct <> PStr "NEXT_QUARTER" ->
  normalise_contractType ct w
  = (Ok (None, None), after w [Stdout ("unhandled contract type: " ++ py_str ct)]).
Proof.
  intros H1 H2 H3. unfold normalise_contractType.
  rewrite (py_eq_str_false _ _ H1). cbn [existsb].
  rewrite (py_eq_str_false _ _ H2), (py_eq_str_false _ _ H3). reflexivity.
Qed.

Lemma usdfut_item_skips (venue : string) (rows : list dict) (d : dict)
      (base quote symbol ct : pyval) (w : world) :
  dict_get d "baseAsset" = Some base ->
  dict_get d "quoteAsset" = Some quote ->
  dict_get d "symbol" = Some symbol ->
  dict_get d "contractType" = Some ct ->
  ct <> PStr "PERPETUAL" -> ct <> PStr "CURRENT_QUARTER" ->
  ct <> PStr "NEXT_QUARTER" ->
  usdfut_item venue rows (PDict d) w
  = (Ok rows,
     after w [Stdout ("unhandled contract type: " ++ py_str ct);
              LogInfo ("skipping asset '" ++ py_str symbol ++ "', assetType is None")]).
Proof.
  intros Hb Hq Hs Hc H1 H2 H3. unfold usdfut_item.
  rewrite (bind_lift_Ok _ _ _ _ (py_getitem_dict _ _ _ Hb)).
  rewrite (bind_lift_Ok _ _ _ _ (py_getitem_dict _ _ _ Hq)).
  rewrite (bind_lift_Ok _ _ _ _ (py_getitem_dict _ _ _ Hs)).
  rewrite (bind_lift_Ok _ _ _ _ (py_getitem_dict _ _ _ Hc)).
  rewrite (bind_Ok _ _ _ _ _ (normalise_contractType_other ct w H1 H2 H3)).
  cbn [fst]. rewrite (bind_Ok _ _ _ _ _ (emit_after _ _)).
  unfold ret. now rewrite after_after.
Qed.

(** C7: the classifier maps "PERPETUAL" to ("perp", "PF"), "CURRENT_QUARTER"
    and "NEXT_QUARTER" to ("future", ""), and every other tag to
    (None, None), printing a diagnostic; the derivative normaliser then
    skips such an item: its loop iteration returns the rows unchanged and
    without an exception, and the loop goes on with the remaining items. *)
Theorem C7_classify_and_skip :
  (forall w, normalise_contractType (PStr "PERPETUAL") w
             = (Ok (Some "perp", Some "PF"), w))
  /\ (forall w, normalise_contractType (PStr "CURRENT_QUARTER") w
                = (Ok (Some "future", Some EmptyString), w))
  /\ (forall w, normalise_contractType (PStr "NEXT_QUARTER") w
                = (Ok (Some "future", Some EmptyString), w))
  /\ (forall ct w,
         ct <> PStr "PERPETUAL" -> ct <> PStr "CURRENT_QUARTER" ->
         ct <> PStr "NEXT_QUARTER" ->
         normalise_contractType ct w
         = (Ok (None, None),
            after w [Stdout ("unhandled contract type: " ++ py_str ct)]))
  /\ (forall venue rows d base quote symbol ct rest w,
         dict_get d "baseAsset" = Some base ->
         dict_get d "quoteAsset" = Some quote ->
         dict_get d "symbol" = Some symbol ->
         dict_get d "contractType" = Some ct ->
         ct <> PStr "PERPETUAL" -> ct <> PStr "CURRENT_QUARTER" ->
         ct <> PStr "NEXT_QUARTER" ->
         let w' :=
           after w [Stdout ("unhandled contract type: " ++ py_str ct);
                    LogInfo ("skipping asset '" ++ py_str symbol
                          ++ "', assetType is None")] in
         usdfut_item venue rows (PDict d) w = (Ok rows, w')
         /\ for_each (usdfut_item venue) rows (PDict d :: rest) w
            = for_each (usdfut_item venue) rows rest w').
Proof.
  split; [reflexivity|]. split; [reflexivity|]. split; [reflexivity|].
  split.
  - exact normalise_contractType_other.
  - intros venue rows d base quote symbol ct rest w Hb Hq Hs Hc H1 H2 H3 w'.
    pose proof (usdfut_item_skips venue rows d base quote symbol ct w
                                  Hb Hq Hs Hc H1 H2 H3) as Hskip.
    split; [exact Hskip|].
    cbn [for_each]. now rewrite (bind_Ok _ _ _ _ _ Hskip).
Qed.

Lemma C7_classify_and_skip_witness :
  normalise_contractType (PStr "UNKNOWN") initial_world
  = (Ok (None, None),
     after initial_world [Stdout "unhandled contract type: UNKNOWN"])
  /\ usdfut_item "binance_usdfut" []
                 (PDict [("symbol", PStr "BTCUSDT"); ("baseAsset", PStr "BTC");
                         ("quoteAsset", PStr "USDT");
                         ("contractType", PStr "UNKNOWN")])
                 initial_world
     = (Ok [],
        after initial_world
              [Stdout "unhandled contract type: UNKNOWN";
               LogInfo "skipping asset 'BTCUSDT', assetType is None"]).
Proof.
  destruct C7_classify_and_skip as (_ & _ & _ & Hother & Hskip).
  split.
  - apply (Hother (PStr "UNKNOWN") initial_world); discriminate.
  - exact (proj1 (Hskip "binance_usdfut" []
                    [("symbol", PStr "BTCUSDT"); ("baseAsset", PStr "BTC");
                     ("quoteAsset", PStr "USDT"); ("contractType", PStr "UNKNOWN")]
                    (PStr "BTC") (PStr "USDT") (PStr "BTCUSDT") (PStr "UNKNOWN")
                    [] initial_world eq_refl eq_refl eq_refl eq_refl
                    ltac:(discriminate) ltac:(discriminate) ltac:(discriminate))).
Defined.

(** ** A malformed future code aborts the run *)

Lemma usdfut_instId_future (s root : string) :
  usdfut_instId "future" (PStr s) root
  = let? code := simplify_future_native_code s in Ok (root ++ "." ++ code).
Proof. reflexivity. Qed.

Lemma normalise_contractType_quarter (ct : pyval) (w : world) :
  ct = PStr "CURRENT_QUARTER" \/ ct = PStr "NEXT_QUARTER" ->
  normalise_contractType ct w = (Ok (Some "future", Some EmptyString), w).
Proof. intros [->| ->]; reflexivity. Qed.

Lemma usdfut_item_format_error (venue : string) (rows : list dict) (d : dict)
      (s msg : string) (w : world) :
  dated_future d s ->
  simplify_future_native_code s = Raise (FormatError msg) ->
  usdfut_item venue rows (PDict d) w = (Raise (FormatError msg), w).
Proof.
  intros ([base Hb] & [quote Hq] & Hs & Hc) Hraise.
  assert (exists ct, dict_get d "contractType" = Some ct
                     /\ (ct = PStr "CURRENT_QUARTER" \/ ct = PStr "NEXT_QUARTER"))
    as (ct & Hct & Hq4) by (destruct Hc; eauto).
  unfold usdfut_item.
  rewrite (bind_lift_Ok _ _ _ _ (py_getitem_dict _ _ _ Hb)).
  rewrite (bind_lift_Ok _ _ _ _ (py_getitem_dict _ _ _ Hq)).
  rewrite (bind_lift_Ok _ _ _ _ (py_getitem_dict _ _ _ Hs)).
  rewrite (bind_lift_Ok _ _ _ _ (py_getitem_dict _ _ _ Hct)).
  rewrite (bind_Ok _ _ _ _ _ (normalise_contractType_quarter ct w Hq4)).
  cbn [fst]. apply bind_Raise. unfold usdfut_row.
  apply bind_lift_Raise. rewrite usdfut_instId_future, Hraise. reflexivity.
Qed.

Lemma raw_items_inv (data : pyval) (items : list pyval) (d : dict) :
  raw_items data = Ok items -> In (PDict d) items ->
  py_getitem data "symbols" = Ok (PList items).
Proof.
  unfold raw_items. destruct (py_getitem data "symbols") as [symbols|e];
    cbn [rbind]; [|discriminate].
  destruct symbols as [| | |s|l|ds]; try discriminate; cbn [py_iter];
    intros H Hin; injection H as <-.
  - apply in_map_iff in Hin. destruct Hin as (c & Hc & _). discriminate.
  - reflexivity.
  - apply in_map_iff in Hin. destruct Hin as (c & Hc & _). discriminate.
Qed.

Lemma parse_usdfut_aborts (fn : string) (data : pyval) (venue : string)
      (items : list pyval) (d : dict) (s msg : string) (w : world) :
  raw_items data = Ok items -> In (PDict d) items ->
  dated_future d s ->
  simplify_future_native_code s = Raise (FormatError msg) ->
  exists e w', parse_binance_usdfut_exchange_info fn data venue w = (Raise e, w').
Proof.
  intros Hraw Hin Hd Hraise.
  pose proof (raw_items_inv _ _ _ Hraw Hin) as Hsym.
  unfold parse_binance_usdfut_exchange_info.
  rewrite (bind_Ok _ _ _ _ _ (emit_after _ _)).
  rewrite (bind_lift_Ok _ _ _ _ Hsym). cbn [py_len].
  rewrite (bind_lift_Ok _ _ _ _ eq_refl).
  rewrite (bind_Ok _ _ _ _ _ (emit_after _ _)).
  rewrite (bind_Ok _ _ _ _ _ (emit_after _ _)).
  cbn [py_iter]. rewrite (bind_lift_Ok _ _ _ _ eq_refl).
  apply (for_each_raises _ (PDict d)); [|exact Hin].
  intros rows w0. exists (FormatError msg), w0.
  now apply usdfut_item_format_error with (s := s).
Qed.

Lemma main_aborts (spot usdfut coinfut : pyval) (items : list pyval) (d : dict)
      (s msg : string) (w : world) :
  raw_items usdfut = Ok items \/ raw_items coinfut = Ok items ->
  In (PDict d) items ->
  dated_future d s ->
  simplify_future_native_code s = Raise (FormatError msg) ->
  exists e w', main spot usdfut coinfut w = (Raise e, w').
Proof.
  intros Hraw Hin Hd Hraise. unfold main.
  destruct (parse_binance_spot_exchange_info "tmp/binance_exchange-info.json" spot w) as [[coin_rows|e] w1] eqn:E1;
    [rewrite (bind_Ok _ _ _ _ _ E1) | rewrite (bind_Raise _ _ _ _ _ E1); eauto].
  destruct (parse_binance_usdfut_exchange_info
              "tmp/binance_usdfut_exchange-info.json" usdfut "binance_usdfut" w1)
    as [[futures_rows|e] w2] eqn:E2;
    [rewrite (bind_Ok _ _ _ _ _ E2) | rewrite (bind_Raise _ _ _ _ _ E2); eauto].
  destruct Hraw as [Hraw|Hraw].
  - destruct (parse_usdfut_aborts "tmp/binance_usdfut_exchange-info.json" usdfut
                "binance_usdfut" items d s msg w1 Hraw Hin Hd Hraise)
      as (e & w' & He).
    rewrite He in E2. discriminate.
  - destruct (parse_usdfut_aborts "tmp/binance_coinfut_exchange-info.json" coinfut
                "binance_coinfut" items d s msg w2 Hraw Hin Hd Hraise)
      as (e & w' & He).
    rewrite (bind_Raise _ _ _ _ _ He). eauto.
Qed.

(** C6: the simplifier raises its own exception (the specification's
    FormatError) exactly when the symbol does not split on "_" into two
    parts or the date part does not have length 6; "ABC" and "X_12345" fail
    so.  The failure is fatal: the loop iteration of a dated future with
    such a symbol raises that exception, the derivative normaliser returns
    no rows for a document that holds such an item, and neither does
    [main]. *)
Theorem C6_format_error_exactly_and_fatal :
  (forall symbol,
      (exists msg, simplify_future_native_code symbol = Raise (FormatError msg))
      <-> (List.length (PyStr.split "_" symbol) <> 2
           \/ String.length (nth 1 (PyStr.split "_" symbol) EmptyString) <> 6))
  /\ (exists msg, simplify_future_native_code "ABC" = Raise (FormatError msg))
  /\ (exists msg, simplify_future_native_code "X_12345" = Raise (FormatError msg))
  /\ (forall venue rows d s msg w,
         dated_future d s ->
         simplify_future_native_code s = Raise (FormatError msg) ->
         usdfut_item venue rows (PDict d) w = (Raise (FormatError msg), w))
  /\ (forall fn data venue items d s msg w,
         raw_items data = Ok items -> In (PDict d) items ->
         dated_future d s ->
         simplify_future_native_code s = Raise (FormatError msg) ->
         exists e w',
           parse_binance_usdfut_exchange_info fn data venue w = (Raise e, w'))
  /\ (forall spot usdfut coinfut items d s msg w,
         raw_items usdfut = Ok items \/ raw_items coinfut = Ok items ->
         In (PDict d) items ->
         dated_future d s ->
         simplify_future_native_code s = Raise (FormatError msg) ->
         exists e w', main spot usdfut coinfut w = (Raise e, w')).
Proof.
  split; [exact simplify_format_error_iff|].
  split; [eexists; reflexivity|].
  split; [eexists; reflexivity|].
  split; [exact usdfut_item_format_error|].
  split; [exact parse_usdfut_aborts | exact main_aborts].
Qed.

Lemma future_item_short_date_dated : dated_future future_item_short_date "X_12345".
Proof.
  repeat split; [now exists (PStr "X") | now exists (PStr "USD") | now left].
Defined.

Lemma C6_format_error_exactly_and_fatal_witness :
  usdfut_item "binance_coinfut" [] (PDict future_item_short_date) initial_world
  = (Raise (FormatError "expected symbol-date to have len 6, '12345'"),
     initial_world)
  /\ exists e w',
      main (PDict [("symbols", PList [])])
           (PDict [("symbols", PList [])])
           (PDict [("symbols", PList [PDict future_item_short_date])])
           initial_world = (Raise e, w').
Proof.
  destruct C6_format_error_exactly_and_fatal as (_ & _ & _ & Hitem & _ & Hmain).
  split.
  - apply (Hitem "binance_coinfut" [] future_item_short_date "X_12345").
    + exact future_item_short_date_dated.
    + reflexivity.
  - apply (Hmain (PDict [("symbols", PList [])]) (PDict [("symbols", PList [])])
                 (PDict [("symbols", PList [PDict future_item_short_date])])
                 [PDict future_item_short_date] future_item_short_date
                 "X_12345" "expected symbol-date to have len 6, '12345'"
                 initial_world).
    + right. reflexivity.
    + left. reflexivity.
    + exact future_item_short_date_dated.
    + reflexivity.
Defined.

(** ** Spot normaliser on one symbol *)

Lemma perm3_cases {A : Type} (a b c : A) (l : list A) :
  Permutation [a; b; c] l ->
  l = [a; b; c] \/ l = [a; c; b] \/ l = [b; a; c]
  \/ l = [b; c; a] \/ l = [c; a; b] \/ l = [c; b; a].
Proof.
  intros H.
  destruct (Permutation_vs_cons_inv (Permutation_sym H)) as (l1 & l2 & ->).
  apply Permutation_cons_app_inv in H.
  apply Permutation_length_2_inv in H.
  destruct l1 as [|x [|y [|z l1]]]; cbn in H; destruct H as [H|H];
    try discriminate H; inversion H; subst; cbn; tauto.
Qed.

Section SpotFilters.

Variables (lot notional price : dict).
Variables (minQty maxQty stepSize minNotional tickSize : pyval).
Hypothesis lot_tag : dict_get lot "filterType" = Some (PStr "LOT_SIZE").
Hypothesis lot_minQty : dict_get lot "minQty" = Some minQty.
Hypothesis lot_maxQty : dict_get lot "maxQty" = Some maxQty.
Hypothesis lot_stepSize : dict_get lot "stepSize" = Some stepSize.
Hypothesis notional_tag : dict_get notional "filterType" = Some (PStr "MIN_NOTIONAL").
Hypothesis notional_min : dict_get notional "minNotional" = Some minNotional.
Hypothesis price_tag : dict_get price "filterType" = Some (PStr "PRICE_FILTER").
Hypothesis price_tick : dict_get price "tickSize" = Some tickSize.

Lemma spot_filter_lot (row : dict) (w : world) :
  spot_filter row (PDict lot) w
  = (Ok (dict_set (dict_set (dict_set row "minQty" minQty) "maxQty" maxQty)
                  "lotQty" stepSize), w).
Proof.
  unfold spot_filter.
  rewrite (bind_lift_Ok _ _ _ _ (py_getitem_dict _ _ _ lot_tag)).
  change (py_eq_str (PStr "LOT_SIZE") "LOT_SIZE") with true. cbv iota.
  rewrite (bind_lift_Ok _ _ _ _ (py_getitem_dict _ _ _ lot_minQty)).
  rewrite (bind_lift_Ok _ _ _ _ (py_getitem_dict _ _ _ lot_maxQty)).
  rewrite (bind_lift_Ok _ _ _ _ (py_getitem_dict _ _ _ lot_stepSize)).
  reflexivity.
Qed.

Lemma spot_filter_notional (row : dict) (w : world) :
  spot_filter row (PDict notional) w
  = (Ok (dict_set row "minNotional" minNotional), w).
Proof.
  unfold spot_filter.
  rewrite (bind_lift_Ok _ _ _ _ (py_getitem_dict _ _ _ notional_tag)).
  change (py_eq_str (PStr "MIN_NOTIONAL") "LOT_SIZE") with false.
  change (py_eq_str (PStr "MIN_NOTIONAL") "MIN_NOTIONAL") with true. cbv iota.
  rewrite (bind_lift_Ok _ _ _ _ (py_getitem_dict _ _ _ notional_min)).
  reflexivity.
Qed.

Lemma spot_filter_price (row : dict) (w : world) :
  spot_filter row (PDict price) w = (Ok (dict_set row "tickSize" tickSize), w).
Proof.
  unfold spot_filter.
  rewrite (bind_lift_Ok _ _ _ _ (py_getitem_dict _ _ _ price_tag)).
  change (py_eq_str (PStr "PRICE_FILTER") "LOT_SIZE") with false.
  change (py_eq_str (PStr "PRICE_FILTER") "MIN_NOTIONAL") with false.
  change (py_eq_str (PStr "PRICE_FILTER") "PRICE_FILTER") with true. cbv iota.
  rewrite (bind_lift_Ok _ _ _ _ (py_getitem_dict _ _ _ price_tick)).
  reflexivity.
Qed.

(** The three filters, in any order, fill the five fields and touch no
    other field of the row. *)
Lemma spot_three_filters (fs : list pyval) (row : dict) (w : world) :
  Permutation [PDict lot; PDict notional; PDict price] fs ->
  exists row',
    for_each spot_filter row fs w = (Ok row', w)
    /\ dict_get row' "minQty" = Some minQty
    /\ dict_get row' "maxQty" = Some maxQty
    /\ dict_get row' "lotQty" = Some stepSize
    /\ dict_get row' "minNotional" = Some minNotional
    /\ dict_get row' "tickSize" = Some tickSize
    /\ forall k, ~ In k filter_written -> dict_get row' k = dict_get row k.
Proof.
  intros Hp.
  assert (Hne : forall k k0, ~ In k filter_written -> In k0 filter_written -> k0 <> k)
    by (intros k k0 Hk H0 ->; contradiction).
  destruct (perm3_cases _ _ _ _ Hp) as [->|[->|[->|[->|[->| ->]]]]];
    cbn [for_each];
    repeat first
      [ rewrite (bind_Ok _ _ _ _ _ (spot_filter_lot _ _))
      | rewrite (bind_Ok _ _ _ _ _ (spot_filter_notional _ _))
      | rewrite (bind_Ok _ _ _ _ _ (spot_filter_price _ _)) ];
    (eexists; split; [reflexivity|]);
    repeat split;
    try (intros k Hk;
         repeat rewrite dict_get_set_other by (apply (Hne k); [exact Hk | simpl; tauto]);
         reflexivity);
    repeat rewrite dict_get_set_other by discriminate;
    apply dict_get_set_same.
Qed.

End SpotFilters.

Lemma spot_item_three_filters
      (rows : list dict) (d lot notional price : dict)
      (fs : list pyval) (base quote : string)
      (symbol quotePrecision basePrecision status : pyval)
      (minQty maxQty stepSize minNotional tickSize : pyval) (w : world) :
  dict_get d "symbol" = Some symbol ->
  dict_get d "baseAsset" = Some (PStr base) ->
  dict_get d "quoteAsset" = Some (PStr quote) ->
  dict_get d "quoteAssetPrecision" = Some quotePrecision ->
  dict_get d "baseAssetPrecision" = Some basePrecision ->
  dict_get d "status" = Some status ->
  dict_get d "filters" = Some (PList fs) ->
  Permutation [PDict lot; PDict notional; PDict price] fs ->
  dict_get lot "filterType" = Some (PStr "LOT_SIZE") ->
  dict_get lot "minQty" = Some minQty ->
  dict_get lot "maxQty" = Some maxQty ->
  dict_get lot "stepSize" = Some stepSize ->
  dict_get notional "filterType" = Some (PStr "MIN_NOTIONAL") ->
  dict_get notional "minNotional" = Some minNotional ->
  dict_get price "filterType" = Some (PStr "PRICE_FILTER") ->
  dict_get price "tickSize" = Some tickSize ->
  exists row,
    spot_item rows (PDict d) w = (Ok (rows ++ [row])%list, w)
    /\ dict_get row "type" = Some (PStr "coinpair")
    /\ dict_get row "instId" = Some (PStr (base ++ "/" ++ quote ++ ".BNC"))
    /\ dict_get row "minQty" = Some minQty
    /\ dict_get row "maxQty" = Some maxQty
    /\ dict_get row "lotQty" = Some stepSize
    /\ dict_get row "minNotional" = Some minNotional
    /\ dict_get row "tickSize" = Some tickSize.
Proof.
  intros Hs Hb Hq Hqp Hbp Hst Hf Hperm L1 L2 L3 L4 N1 N2 P1 P2.
  unfold spot_item.
  repeat first
    [ rewrite (bind_lift_Ok _ _ _ _ (py_getitem_dict _ _ _ Hs))
    | rewrite (bind_lift_Ok _ _ _ _ (py_getitem_dict _ _ _ Hb))
    | rewrite (bind_lift_Ok _ _ _ _ (py_getitem_dict _ _ _ Hq))
    | rewrite (bind_lift_Ok _ _ _ _ (py_getitem_dict _ _ _ Hqp))
    | rewrite (bind_lift_Ok _ _ _ _ (py_getitem_dict _ _ _ Hbp))
    | rewrite (bind_lift_Ok _ _ _ _ (py_getitem_dict _ _ _ Hst))
    | rewrite (bind_lift_Ok _ _ _ _ (py_getitem_dict _ _ _ Hf)) ].
  cbn [py_iter]. rewrite (bind_lift_Ok _ _ _ _ eq_refl).
  match goal with
  | |- context [bind (for_each spot_filter ?row0 fs) _ ?w0] =>
      destruct (spot_three_filters lot notional price minQty maxQty stepSize
                  minNotional tickSize L1 L2 L3 L4 N1 N2 P1 P2 fs row0 w0 Hperm)
        as (row & Hrun & F1 & F2 & F3 & F4 & F5 & Hkeep)
  end.
  rewrite (bind_Ok _ _ _ _ _ Hrun). unfold ret.
  exists row. split; [reflexivity|].
  split; [rewrite Hkeep by (simpl; intuition discriminate); reflexivity|].
  split; [|tauto].
  rewrite Hkeep by (simpl; intuition discriminate).
  change (dict_get _ "instId")
    with (Some (PStr (format_slash (PStr base) (PStr quote) ++ ".BNC"))).
  unfold format_slash, py_str. now rewrite str_app_assoc.
Qed.

(** C8: a spot document with one symbol whose filter list carries, in any
    order, LOT_SIZE{minQty, maxQty, stepSize}, MIN_NOTIONAL{minNotional} and
    PRICE_FILTER{tickSize} yields exactly one record, of type "coinpair",
    with instId "<base>/<quote>.BNC" and with minQty, maxQty, lotQty (the
    step size), minNotional and tickSize taken from the filters. *)
Theorem C8_spot_one_symbol
        (fn : string) (data : pyval) (d lot notional price : dict)
        (fs : list pyval) (base quote : string)
        (symbol quotePrecision basePrecision status : pyval)
        (minQty maxQty stepSize minNotional tickSize : pyval) (w : world) :
  py_getitem data "symbols" = Ok (PList [PDict d]) ->
  dict_get d "symbol" = Some symbol ->
  dict_get d "baseAsset" = Some (PStr base) ->
  dict_get d "quoteAsset" = Some (PStr quote) ->
  dict_get d "quoteAssetPrecision" = Some quotePrecision ->
  dict_get d "baseAssetPrecision" = Some basePrecision ->
  dict_get d "status" = Some status ->
  dict_get d "filters" = Some (PList fs) ->
  Permutation [PDict lot; PDict notional; PDict price] fs ->
  dict_get lot "filterType" = Some (PStr "LOT_SIZE") ->
  dict_get lot "minQty" = Some minQty ->
  dict_get lot "maxQty" = Some maxQty ->
  dict_get lot "stepSize" = Some stepSize ->
  dict_get notional "filterType" = Some (PStr "MIN_NOTIONAL") ->
  dict_get notional "minNotional" = Some minNotional ->
  dict_get price "filterType" = Some (PStr "PRICE_FILTER") ->
  dict_get price "tickSize" = Some tickSize ->
  exists row,
    parse_binance_spot_exchange_info fn data w
    = (Ok [row],
       after w [LogInfo ("reading file '" ++ fn ++ "'"); LogInfo "file has 1 symbols";
                LogInfoIgnoring spot_filters_to_ignore])
    /\ dict_get row "type" = Some (PStr "coinpair")
    /\ dict_get row "instId" = Some (PStr (base ++ "/" ++ quote ++ ".BNC"))
    /\ dict_get row "minQty" = Some minQty
    /\ dict_get row "maxQty" = Some maxQty
    /\ dict_get row "lotQty" = Some stepSize
    /\ dict_get row "minNotional" = Some minNotional
    /\ dict_get row "tickSize" = Some tickSize.
Proof.
  intros Hsym Hs Hb Hq Hqp Hbp Hst Hf Hperm L1 L2 L3 L4 N1 N2 P1 P2.
  unfold parse_binance_spot_exchange_info.
  rewrite (bind_Ok _ _ _ _ _ (emit_after _ _)).
  rewrite (bind_lift_Ok _ _ _ _ Hsym). cbn [py_len List.length].
  rewrite (bind_lift_Ok _ _ _ _ eq_refl).
  rewrite (bind_Ok _ _ _ _ _ (emit_after _ _)).
  rewrite (bind_Ok _ _ _ _ _ (emit_after _ _)).
  cbn [py_iter]. rewrite (bind_lift_Ok _ _ _ _ eq_refl).
  repeat rewrite after_after. cbn [app for_each].
  match goal with
  | |- context [bind (spot_item ?rows _) _ ?w0] =>
      destruct (spot_item_three_filters rows d lot notional price fs base quote
                  symbol quotePrecision basePrecision status
                  minQty maxQty stepSize minNotional tickSize w0
                  Hs Hb Hq Hqp Hbp Hst Hf Hperm L1 L2 L3 L4 N1 N2 P1 P2)
        as (row & Hrun & Hfacts)
  end.
  rewrite (bind_Ok _ _ _ _ _ Hrun). exists row. split; [reflexivity | exact Hfacts].
Qed.

Lemma C8_spot_one_symbol_witness :
  exists row,
    parse_binance_spot_exchange_info "tmp/binance_exchange-info.json"
                                     spot_fixture initial_world
    = (Ok [row],
       after initial_world
             [LogInfo ("reading file '" ++ "tmp/binance_exchange-info.json" ++ "'");
              LogInfo "file has 1 symbols"; LogInfoIgnoring spot_filters_to_ignore])
    /\ dict_get row "type" = Some (PStr "coinpair")
    /\ dict_get row "instId" = Some (PStr ("BTC" ++ "/" ++ "USDT" ++ ".BNC"))
    /\ dict_get row "minQty" = Some (PStr "0.00001000")
    /\ dict_get row "maxQty" = Some (PStr "9000.00000000")
    /\ dict_get row "lotQty" = Some (PStr "0.00001000")
    /\ dict_get row "minNotional" = Some (PStr "10.00000000")
    /\ dict_get row "tickSize" = Some (PStr "0.01000000").
Proof.
  apply (C8_spot_one_symbol
           "tmp/binance_exchange-info.json" spot_fixture spot_fixture_item
           spot_fixture_lot spot_fixture_notional spot_fixture_price
           spot_fixture_filters "BTC" "USDT"
           (PStr "BTCUSDT") (PInt 8) (PInt 8) (PStr "TRADING"));
    try reflexivity.
  apply Permutation_sym. apply perm_trans with (1 := perm_swap _ _ _).
  apply perm_skip. apply perm_swap.
Defined.

(** ** Instrument-ID of a perpetual *)

Lemma perp_suffixes_exclusive (t : string) :
  prefix "PREP_" t = true -> prefix "PREP." t = false.
Proof.
  destruct t as [|c1 [|c2 [|c3 [|c4 [|c5 t]]]]]; cbn [prefix];
    repeat match goal with
           | |- context [ascii_dec ?a ?b] => destruct (ascii_dec a b)
           end;
    subst; try reflexivity; try discriminate.
Qed.

(** The branch that rewrites the "_PERP" suffix is never taken: a perpetual
    gets "<root>.PF.BNC" when its symbol does not end with "_PERP", and
    "<root>.BNC" when it does. *)
Lemma usdfut_instId_perp (s root : string) :
  usdfut_instId "perp" (PStr s) root
  = Ok (if PyStr.endswith s "_PERP" then root ++ ".BNC" else root ++ ".PF.BNC").
Proof.
  unfold usdfut_instId.
  change (String.eqb "perp" "perp") with true.
  change (String.eqb "perp" "future") with false.
  cbn [as_str rbind].
  destruct (PyStr.endswith s "_PERP") eqn:E; cbn [negb]; [|reflexivity].
  unfold PyStr.endswith in *.
  change (PyStr.rev_string "_PERP") with "PREP_" in E.
  change (PyStr.rev_string ".PERP") with "PREP.".
  now rewrite (perp_suffixes_exclusive _ E).
Qed.

(** C4: the perpetual "BTCUSD_PERP" with base "BTC" and quote "USD" gets the
    instrument id "BTC/USD.BNC", without the ".PF" marker. *)
Theorem C4_perp_suffix_loses_PF :
  usdfut_instId "perp" (PStr "BTCUSD_PERP") (format_slash (PStr "BTC") (PStr "USD"))
  = Ok "BTC/USD.BNC"
  /\ fst (parse_binance_usdfut_exchange_info
            "tmp/binance_coinfut_exchange-info.json"
            (PDict [("symbols", PList [PDict coinfut_perp_item])])
            "binance_coinfut" initial_world)
     = Ok [coinfut_perp_record]
  /\ dict_get coinfut_perp_record "instId" = Some (PStr "BTC/USD.BNC").
Proof. repeat split; vm_compute; reflexivity. Qed.

(** ** Warn-once *)

Lemma warnings_app (es fs : list event) :
  warnings (es ++ fs) = (warnings es ++ warnings fs)%list.
Proof.
  induction es as [|e es IH]; [reflexivity|].
  destruct e; cbn [app warnings]; now rewrite IH.
Qed.

Section Preserves.

Variable P : world -> Prop.

Lemma preserves_ret {A : Type} (a : A) : preserves P (ret a).
Proof. intros w r w' H Hw. injection H as _ <-. exact Hw. Qed.

Lemma preserves_lift {A : Type} (r : result A) : preserves P (lift r).
Proof. intros w r' w' H Hw. injection H as _ <-. exact Hw. Qed.

Lemma preserves_bind {A B : Type} (m : M A) (k : A -> M B) :
  preserves P m -> (forall a, preserves P (k a)) -> preserves P (bind m k).
Proof.
  intros Hm Hk w r w' H Hw. unfold bind in H.
  destruct (m w) as [[a|e] w1] eqn:E.
  - exact (Hk a _ _ _ H (Hm _ _ _ E Hw)).
  - injection H as _ <-. exact (Hm _ _ _ E Hw).
Qed.

Lemma preserves_for_each {A S : Type} (body : S -> A -> M S) (l : list A) :
  (forall s x, preserves P (body s x)) ->
  forall s, preserves P (for_each body s l).
Proof.
  intros Hb. induction l as [|x l IH]; intros s; cbn [for_each].
  - apply preserves_ret.
  - apply preserves_bind; [apply Hb | exact IH].
Qed.

End Preserves.

Lemma emit_keeps_warn_once (e : event) :
  warnings [e] = [] -> preserves warn_once_inv (emit e).
Proof.
  intros He w r w' H [Hnd Hincl]. injection H as _ <-.
  unfold warn_once_inv. cbn [emitted log_warn_once_msgs].
  rewrite warnings_app, He, app_nil_r. now split.
Qed.

Lemma log_warn_once_keeps_warn_once (msg : string) :
  preserves warn_once_inv (log_warn_once msg).
Proof.
  intros w r w' H [Hnd Hincl]. unfold log_warn_once in H.
  destruct (existsb (String.eqb msg) (log_warn_once_msgs w)) eqn:E.
  - injection H as _ <-. now split.
  - injection H as _ <-. unfold warn_once_inv.
    cbn [emitted log_warn_once_msgs]. rewrite warnings_app. cbn [warnings].
    assert (Hnew : ~ In msg (warnings (emitted w))).
    { intros Hin. apply Hincl in Hin.
      assert (existsb (String.eqb msg) (log_warn_once_msgs w) = true)
        by (apply existsb_exists; exists msg; split;
            [assumption | apply String.eqb_refl]).
      congruence. }
    split.
    + apply NoDup_app; [assumption | repeat constructor; simpl; tauto |].
      intros x Hx [<-|[]]. contradiction.
    + intros x Hx. apply in_app_or in Hx. destruct Hx as [Hx|[<-|[]]].
      * right. now apply Hincl.
      * now left.
Qed.

Ltac keeps_warn_once :=
  repeat first
    [ apply preserves_ret
    | apply preserves_lift
    | apply log_warn_once_keeps_warn_once
    | apply emit_keeps_warn_once; reflexivity
    | apply preserves_bind; [|intros ?]
    | match goal with
      | |- preserves _ (if ?b then _ else _) => destruct b
      end ].

Lemma spot_filter_keeps_warn_once (row : dict) (filter : pyval) :
  preserves warn_once_inv (spot_filter row filter).
Proof. unfold spot_filter. keeps_warn_once. Qed.

Lemma spot_item_keeps_warn_once (rows : list dict) (item : pyval) :
  preserves warn_once_inv (spot_item rows item).
Proof.
  unfold spot_item. keeps_warn_once.
  apply preserves_for_each. exact spot_filter_keeps_warn_once.
Qed.

(** The spot normaliser keeps the warn-once discipline: run from a fresh
    process, it never writes the same warning twice, whatever the document
    and whether or not it raises. *)
Lemma spot_warns_once (fn : string) (data : pyval) :
  preserves warn_once_inv (parse_binance_spot_exchange_info fn data).
Proof.
  unfold parse_binance_spot_exchange_info. keeps_warn_once.
  apply preserves_for_each. exact spot_item_keeps_warn_once.
Qed.

Lemma spot_warnings_distinct (fn : string) (data : pyval) :
  NoDup (warnings (emitted (snd (parse_binance_spot_exchange_info
                                   fn data initial_world)))).
Proof.
  destruct (parse_binance_spot_exchange_info fn data initial_world) as [r w'] eqn:E.
  apply (spot_warns_once fn data _ _ _ E). split.
  - constructor.
  - intros x [].
Qed.

(** C2: on a document with three symbols that each carry a filter with the
    unhandled tag "FOO", the derivative normaliser writes the same warning
    three times; the spot normaliser, on the same document, writes it
    once. *)
Theorem C2_usdfut_warns_every_time :
  warnings (emitted (snd (parse_binance_usdfut_exchange_info
                            "tmp/binance_usdfut_exchange-info.json"
                            three_unknown_filters "binance_usdfut" initial_world)))
  = [ "ignoring binance filter 'FOO'"; "ignoring binance filter 'FOO'";
      "ignoring binance filter 'FOO'" ]
  /\ warnings (emitted (snd (parse_binance_spot_exchange_info
                               "tmp/binance_exchange-info.json"
                               three_unknown_filters initial_world)))
     = [ "ignoring binance filter 'FOO'" ].
Proof. split; vm_compute; reflexivity. Qed.

(** ** Column Discovery *)

(** C1: with the key field "instId" first in the first record, column
    discovery lists the key twice; a field named by one character of the
    key, met before the key, is left out.  On the specification's example
    the result is as claimed. *)
Theorem C1_key_column_twice :
  extract_header_cols
    [ [("instId", PStr "BTC/USDT.BNC"); ("symbol", PStr "BTCUSDT")] ] "instId"
  = ["instId"; "instId"; "symbol"]
  /\ extract_header_cols [ [("d", PInt 1); ("instId", PStr "BTC/USDT.BNC")] ] "instId"
     = ["instId"; "instId"]
  /\ extract_header_cols
       [ [("a", PInt 1); ("b", PInt 2)]; [("a", PInt 1); ("c", PInt 3)] ] "a"
     = ["a"; "b"; "c"].
Proof. repeat split. Qed.

(** ** CSV Writer *)

Section CsvRows.

Variable index_field : string.
Variable header_cols : list string.

#[local] Abbreviation string_keyed := (string_keyed index_field).
#[local] Abbreviation enc := (csv_enc header_cols).
#[local] Abbreviation kept_inv := (kept_inv index_field).

Lemma after_nil (w : world) : after w [] = w.
Proof. destruct w. unfold after. cbn. now rewrite app_nil_r. Qed.

Lemma lines_get_enc (kept : list (string * dict)) (k : string) :
  lines_get (map enc kept) (PStr k)
  = option_map (csv_line header_cols) (assoc k kept).
Proof.
  induction kept as [|[k' r] kept IH]; [reflexivity|].
  cbn [map lines_get assoc csv_enc fst snd py_key_eqb].
  destruct (String.eqb k' k); [reflexivity | exact IH].
Qed.

Lemma csv_row_string_key (kept : list (string * dict)) (row : dict) (w : world) :
  string_keyed row ->
  csv_row index_field header_cols (map enc kept) row w
  = (Ok (map enc (keep_step index_field kept row)),
     after w (map duplicate_diagnostic (dropped_keys index_field kept [row]))).
Proof.
  intros [s Hs]. unfold csv_row, keep_step. cbn [dropped_keys].
  unfold str_key. rewrite Hs.
  rewrite (bind_lift_Ok _ _ _ _ eq_refl). cbn [py_hashable].
  rewrite lines_get_enc.
  destruct (assoc s kept) as [r|]; cbn [option_map map].
  - rewrite (bind_Ok _ _ _ _ _ (emit_after _ _)). reflexivity.
  - unfold ret. rewrite after_nil, map_app. reflexivity.
Qed.

Lemma dropped_keys_cons (kept : list (string * dict)) (row : dict) (rows : list dict) :
  dropped_keys index_field kept (row :: rows)
  = (dropped_keys index_field kept [row]
     ++ dropped_keys index_field (keep_step index_field kept row) rows)%list.
Proof.
  cbn [dropped_keys]. unfold keep_step.
  destruct (assoc (str_key index_field row) kept); reflexivity.
Qed.

Lemma csv_rows_string_keys (rows : list dict) :
  Forall string_keyed rows ->
  forall (kept : list (string * dict)) (w : world),
    for_each (csv_row index_field header_cols) (map enc kept) rows w
    = (Ok (map enc (fold_left (keep_step index_field) rows kept)),
       after w (map duplicate_diagnostic (dropped_keys index_field kept rows))).
Proof.
  induction 1 as [|row rows Hrow _ IH]; intros kept w.
  - cbn. unfold ret. now rewrite after_nil.
  - cbn [for_each fold_left].
    rewrite (bind_Ok _ _ _ _ _ (csv_row_string_key kept row w Hrow)).
    rewrite IH, after_after, (dropped_keys_cons kept row rows), map_app.
    reflexivity.
Qed.

Lemma has_key_string (row : dict) (k : string) :
  string_keyed row ->
  has_key index_field k row = String.eqb (str_key index_field row) k.
Proof. intros [s Hs]. unfold has_key, str_key. now rewrite Hs. Qed.

Lemma assoc_None_iff (kept : list (string * dict)) (k : string) :
  assoc k kept = None <-> ~ In k (map fst kept).
Proof.
  induction kept as [|[k' r] kept IH]; cbn [assoc map fst In]; [tauto|].
  destruct (String.eqb_spec k' k) as [->|Hne].
  - split; [discriminate | intros H; elim H; now left].
  - rewrite IH. tauto.
Qed.

Lemma assoc_Some_In (kept : list (string * dict)) (k : string) (r : dict) :
  assoc k kept = Some r -> In (k, r) kept.
Proof.
  induction kept as [|[k' r'] kept IH]; cbn [assoc In]; [discriminate|].
  destruct (String.eqb_spec k' k) as [->|Hne].
  - intros H. injection H as ->. now left.
  - intros H. right. now apply IH.
Qed.

Lemma In_assoc (kept : list (string * dict)) (k : string) (r : dict) :
  NoDup (map fst kept) -> In (k, r) kept -> assoc k kept = Some r.
Proof.
  induction kept as [|[k' r'] kept IH]; cbn [assoc In map fst]; [tauto|].
  intros Hnd [H|H].
  - injection H as -> ->. now rewrite String.eqb_refl.
  - inversion Hnd as [|? ? Hnotin Hnd']; subst.
    destruct (String.eqb_spec k' k) as [->|Hne].
    + elim Hnotin. apply in_map_iff. now exists (k, r).
    + now apply IH.
Qed.

Lemma assoc_app_new (kept : list (string * dict)) (k s : string) (row : dict) :
  assoc k (kept ++ [(s, row)])
  = match assoc k kept with
    | Some r => Some r
    | None => if String.eqb s k then Some row else None
    end.
Proof.
  induction kept as [|[k' r'] kept IH]; cbn [assoc app]; [reflexivity|].
  destruct (String.eqb k' k); [reflexivity | exact IH].
Qed.

Lemma find_app_left {A : Type} (f : A -> bool) (l l' : list A) (x : A) :
  find f l = Some x -> find f (l ++ l') = Some x.
Proof.
  induction l as [|y l IH]; cbn [find app]; [discriminate|].
  destruct (f y); [auto | exact IH].
Qed.

Lemma find_app_right {A : Type} (f : A -> bool) (l l' : list A) :
  (forall y, In y l -> f y = false) -> find f (l ++ l') = find f l'.
Proof.
  induction l as [|y l IH]; cbn [find app]; intros H; [reflexivity|].
  rewrite (H y (or_introl eq_refl)). apply IH. intros z Hz. apply H. now right.
Qed.

Lemma keep_step_inv (pre : list dict) (kept : list (string * dict)) (row : dict) :
  Forall string_keyed pre -> string_keyed row ->
  kept_inv pre kept ->
  kept_inv (pre ++ [row]) (keep_step index_field kept row).
Proof.
  intros Hpre Hrow (Hnd & Hfirst & Hseen). unfold keep_step.
  destruct (assoc (str_key index_field row) kept) as [r|] eqn:E.
  - split; [assumption|]. split.
    + intros k r' Hin. apply find_app_left. now apply Hfirst.
    + intros row' Hin. apply in_app_or in Hin. destruct Hin as [Hin|[<-|[]]].
      * now apply Hseen.
      * apply assoc_Some_In in E. apply in_map_iff.
        now exists (str_key index_field row, r).
  - pose proof (proj1 (assoc_None_iff _ _) E) as Hnew.
    split; [|split].
    + rewrite map_app. apply NoDup_app; [assumption | repeat constructor; simpl; tauto |].
      intros x Hx [<-|[]]. contradiction.
    + intros k r Hin. apply in_app_or in Hin. destruct Hin as [Hin|[Heq|[]]].
      * apply find_app_left. now apply Hfirst.
      * injection Heq as <- <-. unfold first_with_key.
        rewrite find_app_right.
        -- cbn [find]. rewrite (has_key_string _ _ Hrow), String.eqb_refl.
           reflexivity.
        -- intros y Hy. rewrite Forall_forall in Hpre.
           rewrite (has_key_string _ _ (Hpre y Hy)).
           apply String.eqb_neq. intros Heq. apply Hnew.
           rewrite <- Heq. now apply Hseen.
    + intros row' Hin. rewrite map_app. apply in_or_app.
      apply in_app_or in Hin. destruct Hin as [Hin|[<-|[]]].
      * left. now apply Hseen.
      * right. now left.
Qed.

Lemma keep_all_inv (rows : list dict) :
  forall (pre : list dict) (kept : list (string * dict)),
    Forall string_keyed pre -> Forall string_keyed rows ->
    kept_inv pre kept ->
    kept_inv (pre ++ rows) (fold_left (keep_step index_field) rows kept).
Proof.
  induction rows as [|row rows IH]; intros pre kept Hpre Hrows Hinv;
    cbn [fold_left].
  - now rewrite app_nil_r.
  - inversion Hrows as [|? ? Hrow Hrows']; subst.
    replace (pre ++ row :: rows)%list with ((pre ++ [row]) ++ rows)%list
      by (now rewrite <- app_assoc).
    apply IH; [|assumption|].
    + apply Forall_app. split; [assumption | now constructor].
    + now apply keep_step_inv.
Qed.

(** One key is dropped for each record beyond the first of its key. *)
Lemma dropped_keys_count (rows : list dict) (k : string) :
  Forall string_keyed rows ->
  forall kept : list (string * dict),
    count_occ string_dec (dropped_keys index_field kept rows) k
    = match assoc k kept with
      | Some _ => count_with_key index_field k rows
      | None => count_with_key index_field k rows - 1
      end.
Proof.
  unfold count_with_key.
  induction 1 as [|row rows Hrow _ IH]; intros kept.
  - cbn. now destruct (assoc k kept).
  - cbn [dropped_keys filter]. rewrite (has_key_string _ _ Hrow).
    set (s := str_key index_field row).
    destruct (assoc s kept) as [r|] eqn:Es.
    + cbn [count_occ]. rewrite IH.
      destruct (string_dec s k) as [Heq|Hne].
      * rewrite Heq in *. rewrite String.eqb_refl, Es. reflexivity.
      * apply String.eqb_neq in Hne. rewrite Hne.
        reflexivity.
    + rewrite IH, assoc_app_new.
      destruct (String.eqb_spec s k) as [Heq|Hne].
      * rewrite <- Heq, Es. cbn [List.length]. lia.
      * destruct (assoc k kept); reflexivity.
Qed.

End CsvRows.

(** ** The order of the keys *)

Lemma ascii_compare_lt_trans (a b c : ascii) :
  Ascii.compare a b = Lt -> Ascii.compare b c = Lt -> Ascii.compare a c = Lt.
Proof.
  unfold Ascii.compare. rewrite !N.compare_lt_iff. apply N.lt_trans.
Qed.

Lemma ascii_compare_refl (a : ascii) : Ascii.compare a a = Eq.
Proof. unfold Ascii.compare. apply N.compare_refl. Qed.

Lemma str_compare_refl (a : string) : String.compare a a = Eq.
Proof.
  induction a as [|x a IH]; cbn [String.compare]; [reflexivity|].
  now rewrite ascii_compare_refl.
Qed.

Lemma str_compare_lt_trans (a : string) :
  forall b c, String.compare a b = Lt -> String.compare b c = Lt ->
              String.compare a c = Lt.
Proof.
  induction a as [|x a IH]; intros [|y b] [|z c]; cbn [String.compare];
    try discriminate; try reflexivity.
  destruct (Ascii.compare x y) eqn:Exy; try discriminate;
    destruct (Ascii.compare y z) eqn:Eyz; try discriminate; intros Hab Hbc.
  - apply Ascii.compare_eq_iff in Exy, Eyz. subst.
    rewrite ascii_compare_refl. exact (IH _ _ Hab Hbc).
  - apply Ascii.compare_eq_iff in Exy. subst. now rewrite Eyz.
  - apply Ascii.compare_eq_iff in Eyz. subst. now rewrite Exy.
  - now rewrite (ascii_compare_lt_trans _ _ _ Exy Eyz).
Qed.

Lemma str_lt_trans (a b c : string) : str_lt a b -> str_lt b c -> str_lt a c.
Proof.
  unfold str_lt, String.ltb. intros Hab Hbc.
  destruct (String.compare a b) eqn:Eab; try discriminate.
  destruct (String.compare b c) eqn:Ebc; try discriminate.
  now rewrite (str_compare_lt_trans _ _ _ Eab Ebc).
Qed.

Lemma str_lt_irrefl (a : string) : ~ str_lt a a.
Proof.
  unfold str_lt, String.ltb. rewrite str_compare_refl. discriminate.
Qed.

Lemma str_lt_connected (a b : string) :
  a <> b -> String.ltb b a = false -> str_lt a b.
Proof.
  unfold str_lt, String.ltb. intros Hne H.
  rewrite String.compare_antisym in H.
  destruct (String.compare a b) eqn:E; try reflexivity.
  - apply String.compare_eq_iff in E. contradiction.
  - discriminate.
Qed.

Lemma sorted_insert_strings (x : string) (l : list string) :
  ~ In x l -> StronglySorted str_lt l ->
  exists l',
    sorted_insert (PStr x) (map PStr l) = Ok (map PStr l')
    /\ Permutation (x :: l) l' /\ StronglySorted str_lt l'.
Proof.
  induction l as [|y l IH]; intros Hx Hs.
  - exists [x]. repeat split; [apply Permutation_refl | repeat constructor].
  - cbn [map sorted_insert py_lt rbind].
    inversion Hs as [|? ? Hs' Hy]; subst.
    destruct (String.ltb y x) eqn:E.
    + destruct IH as (l' & Hrun & Hperm & Hsorted);
        [intros H; apply Hx; now right | assumption |].
      rewrite Hrun. cbn [rbind]. exists (y :: l'). split; [reflexivity|].
      split.
      * apply perm_trans with (1 := perm_swap _ _ _). now apply perm_skip.
      * constructor; [assumption|].
        apply Forall_forall. intros z Hz.
        apply (Permutation_in _ (Permutation_sym Hperm)) in Hz.
        destruct Hz as [<-|Hz]; [exact E|].
        rewrite Forall_forall in Hy. now apply Hy.
    + exists (x :: y :: l). split; [reflexivity|].
      split; [apply Permutation_refl|].
      assert (Hxy : str_lt x y).
      { apply str_lt_connected; [|exact E]. intros ->. apply Hx. now left. }
      constructor; [assumption|]. constructor; [assumption|].
      apply Forall_forall. intros z Hz. rewrite Forall_forall in Hy.
      exact (str_lt_trans _ _ _ Hxy (Hy z Hz)).
Qed.

(** Sorting distinct string keys succeeds and puts them in strictly
    ascending order. *)
Lemma py_sorted_strings (ks : list string) :
  NoDup ks ->
  exists ks',
    py_sorted (map PStr ks) = Ok (map PStr ks')
    /\ Permutation ks ks' /\ StronglySorted str_lt ks'.
Proof.
  induction ks as [|x ks IH]; intros Hnd.
  - exists []. repeat split; constructor.
  - inversion Hnd as [|? ? Hx Hnd']; subst.
    destruct (IH Hnd') as (ks0 & Hrun & Hperm & Hsorted).
    destruct (sorted_insert_strings x ks0) as (ks' & Hins & Hperm' & Hsorted');
      [intros H; apply Hx; exact (Permutation_in _ (Permutation_sym Hperm) H)
      | assumption |].
    exists ks'. cbn [map py_sorted]. rewrite Hrun. cbn [rbind].
    split; [exact Hins|]. split; [|assumption].
    apply perm_trans with (2 := Hperm'). now apply perm_skip.
Qed.

Lemma csv_text_line (delim : string) (header_cols : list string) (row : dict) :
  csv_text delim (csv_line header_cols row) = csv_data_row delim header_cols row.
Proof.
  unfold csv_text, csv_data_row, csv_line. rewrite map_map. f_equal. f_equal.
  apply map_ext. intros col. unfold csv_cell, dict_get_default.
  now destruct (dict_get row col).
Qed.



(** The text written for [csv_fixture]. *)
Example write_csv_file_fixture :
  fst (write_csv_file "tmp/binance_assets.csv" csv_fixture "instId" "," initial_world)
  = Ok ("instId,symbol,minQty,tickSize" ++ newline
        ++ "BTC/USDT.BNC,BTCUSDT,,0.01" ++ newline
        ++ "ETH/USDT.BNC,ETHUSDT,0.001," ++ newline)
  /\ emitted (snd (write_csv_file "tmp/binance_assets.csv" csv_fixture "instId" ","
                                  initial_world))
     = [ Stdout "ignoring duplicate row for 'ETH/USDT.BNC'";
         LogInfo "writing file 'tmp/binance_assets.csv'" ].
Proof. split; vm_compute; reflexivity. Qed.
